(** * planets: the slang-word service of [backend/app.py]

    A shallow embedding of the FastAPI application: the process-wide
    registry [model_state], the favourites list [starred_words], the
    start-up hook [lifespan] with [load_model], and the request
    handlers.  Python's exceptions, the mutable globals and the calls
    into the outside world (file system, [tokenizers], [slanggen],
    [torch], the logger, the sampler) are made explicit in a small
    state-and-exception monad. *)

From Stdlib Require Import ZArith QArith.
From stdpp Require Import base strings list gmap.

Local Open Scope string_scope.
Local Set Warnings "-register-all".

(** ** Python values that the application handles *)

(** The exception classes that occur in [app.py] or escape from the
    libraries it calls.  All of them derive from [Exception]. *)
Inductive exn_class :=
| FileNotFoundError
| RuntimeError
| ValueError
| JSONDecodeError
| TypeError
| OSError
| KeyError
| OtherException (name : string).

(** An exception instance built from one message; [str(e)] is that message. *)
Record PyErr := mkErr { err_class : exn_class; err_msg : string }.

Definition py_str (e : PyErr) : string := err_msg e.

(** What a request handler can raise: a Python exception that nobody
    caught, or FastAPI's [HTTPException(status_code, detail)]. *)
Inductive exn :=
| PyExc (e : PyErr)
| HTTPException (status_code : Z) (detail : string).

(** [json.load] results. *)
Inductive json :=
| JNull
| JBool (b : bool)
| JInt (z : Z)
| JFloat (q : Q)
| JStr (s : string)
| JList (l : list json)
| JDict (kvs : list (string * json)).

(** Modelled from the spec: the class [tokenizers.Tokenizer] is library
    code; its data follows section 3 (Vocabulary, Tokenizer): the
    vocabulary is the ordered list of the tokens, the id of a token is
    its position, and two ids are reserved for the start and the end of
    a word. *)
Record Tokenizer := mkTokenizer {
  vocab : list string;
  start_token : nat;
  end_token : nat
}.

(** Modelled from the spec: the hyperparameters that section 3 (Model
    Configuration) lists; [slanggen] reads them from the 'model' entry
    of the configuration. *)
Record ModelConfig := mkConfig {
  vocab_size : nat;
  embedding_dim : nat;
  hidden_dim : nat;
  num_layers : nat
}.

(** Modelled from the spec: the trained numeric parameters that
    [torch.load] reads from the weights file. *)
Definition StateDict := list Q.

(** Modelled from the spec: the class [slanggen.models.SlangRNN] is
    library code; by section 3 (Sequence Model) a model owns its
    configuration and, once [load_state_dict] has run, its parameters. *)
Record Model := mkModel {
  model_config : ModelConfig;
  parameters : option StateDict
}.

(** The objects stored in [model_state]; Python is dynamically typed, so
    either kind can sit under either key. *)
Inductive pyobj :=
| PyModel (m : Model)
| PyTokenizer (t : Tokenizer).

(** ** Effects *)

(** Severities of the logger; [EXCEPTION] is [logger.exception], an error
    record that carries the traceback of the exception being handled. *)
Inductive level := INFO | SUCCESS | WARNING | ERROR | EXCEPTION.

(** Calls that leave the module. *)
Inductive call :=
| path_exists_call (p : string)
| Tokenizer_from_file_call (p : string)
| json_load_call (p : string)
| SlangRNN_call (config : json)
| torch_load_call (p : string)
| load_state_dict_call (m : Model) (sd : StateDict)
| FileResponse_call (path : string)
| sample_n_call (n : Z) (model tokenizer : pyobj) (max_length : Z) (temperature : Q).

Inductive event :=
| Log (lvl : level) (msg : string)
| Call (c : call).

(** The randomness the sampler consumes. *)
Definition Rng := list N.

(** The module's globals, the history of its effects and the generator
    state. *)
Record State := mkState {
  ARTEFACTS : string;
  model_state : gmap string pyobj;
  starred_words : list string;
  events : list event;
  rng : Rng
}.

Definition set_ARTEFACTS (p : string) (σ : State) : State :=
  mkState p (model_state σ) (starred_words σ) (events σ) (rng σ).
Definition set_model_state (m : gmap string pyobj) (σ : State) : State :=
  mkState (ARTEFACTS σ) m (starred_words σ) (events σ) (rng σ).
Definition set_starred_words (l : list string) (σ : State) : State :=
  mkState (ARTEFACTS σ) (model_state σ) l (events σ) (rng σ).
Definition emit (e : event) (σ : State) : State :=
  mkState (ARTEFACTS σ) (model_state σ) (starred_words σ) (events σ ++ [e]) (rng σ).
Definition set_rng (r : Rng) (σ : State) : State :=
  mkState (ARTEFACTS σ) (model_state σ) (starred_words σ) (events σ) r.

(** A computation reads and writes the state and either returns or raises. *)
Definition M (E A : Type) : Type := State → (E + A) * State.

Global Instance M_ret {E} : MRet (M E) := λ A a σ, (inr a, σ).
Global Instance M_bind {E} : MBind (M E) := λ A B f m σ,
  match m σ with
  | (inl e, σ') => (inl e, σ')
  | (inr a, σ') => f a σ'
  end.

Definition raise {E A} (e : E) : M E A := λ σ, (inl e, σ).

(** [try: m except Exception as e: h e]; what [m] did to the state before
    raising stays done. *)
Definition try_except {E E' A} (m : M E A) (h : E → M E' A) : M E' A := λ σ,
  match m σ with
  | (inl e, σ') => h e σ'
  | (inr a, σ') => (inr a, σ')
  end.

Definition gets {E A} (f : State → A) : M E A := λ σ, (inr (f σ), σ).
Definition modify {E} (f : State → State) : M E unit := λ σ, (inr tt, f σ).

Definition logger {E} (lvl : level) (msg : string) : M E unit :=
  modify (emit (Log lvl msg)).

Definition lift {E A} (r : E + A) : M E A := λ σ, (r, σ).

(** ** The world outside the module

    What the file system and the imported libraries answer.  [w_resolve]
    is [Path(p).resolve()]; [w_exists p] is [p.exists()], which answers
    [False] for a path that is not there and raises the [OSError] of any
    other failure of the look-up (a folder that may not be searched);
    [w_json_load p] is [p.open("r")] followed by [json.load];
    [w_load_state_dict] returns the model it has mutated; [w_sample_n]
    is [backend.utils.sample_n]; [w_FileResponse p] is what sending a
    [FileResponse(p)] finds, the content of the file or the error of
    looking it up. *)
Record World := mkWorld {
  w_resolve : string → string;
  w_exists : string → PyErr + bool;
  w_from_file : string → PyErr + Tokenizer;
  w_json_load : string → PyErr + json;
  w_SlangRNN : json → PyErr + Model;
  w_torch_load : string → PyErr + StateDict;
  w_load_state_dict : Model → StateDict → PyErr + Model;
  w_sample_n : Z → pyobj → pyobj → Z → Q → Rng → (PyErr + list string) * Rng;
  w_FileResponse : string → PyErr + string
}.

(** ** Operators of the language *)

Definition path_join (p name : string) : string := p ++ "/" ++ name.
Infix "/" := path_join : string_scope.

Definition type_name (j : json) : string :=
  match j with
  | JNull => "NoneType"
  | JBool _ => "bool"
  | JInt _ => "int"
  | JFloat _ => "float"
  | JStr _ => "str"
  | JList _ => "list"
  | JDict _ => "dict"
  end.

Definition is_JStr (s : string) (j : json) : bool :=
  match j with
  | JStr s' => String.eqb s s'
  | _ => false
  end.

(** [key in container] for a string [key]: key membership for a dict,
    element membership for a list, substring test for a string, and a
    [TypeError] for the scalars. *)
Definition py_in (key : string) (container : json) : PyErr + bool :=
  match container with
  | JDict kvs => inr (bool_decide (key ∈ kvs.*1))
  | JList l => inr (existsb (is_JStr key) l)
  | JStr s => inr (bool_decide (is_Some (String.index 0 key s)))
  | _ => inl (mkErr TypeError
                ("argument of type '" ++ type_name container ++ "' is not iterable"))
  end.

Fixpoint assoc (key : string) (kvs : list (string * json)) : option json :=
  match kvs with
  | [] => None
  | (k, v) :: kvs' => if String.eqb key k then Some v else assoc key kvs'
  end.

(** [container[key]] for a string [key]. *)
Definition py_getitem (container : json) (key : string) : PyErr + json :=
  match container with
  | JDict kvs =>
      match assoc key kvs with
      | Some v => inr v
      | None => inl (mkErr KeyError ("'" ++ key ++ "'"))
      end
  | JList _ => inl (mkErr TypeError "list indices must be integers or slices, not str")
  | JStr _ => inl (mkErr TypeError "string indices must be integers, not 'str'")
  | _ => inl (mkErr TypeError
                ("'" ++ type_name container ++ "' object is not subscriptable"))
  end.

(** ** Start-up: [load_model] and [lifespan] *)

Section App.

Variable W : World.

(** A call that leaves the module is recorded, then answered by the
    world. *)
Definition outside {A} (c : call) (answer : PyErr + A) : M PyErr A :=
  modify (emit (Call c));; lift answer.

Definition path_exists (p : string) : M PyErr bool :=
  outside (path_exists_call p) (w_exists W p).
Definition Tokenizer_from_file (p : string) : M PyErr Tokenizer :=
  outside (Tokenizer_from_file_call p) (w_from_file W p).
Definition json_load (p : string) : M PyErr json :=
  outside (json_load_call p) (w_json_load W p).
Definition SlangRNN (config : json) : M PyErr Model :=
  outside (SlangRNN_call config) (w_SlangRNN W config).
Definition torch_load (p : string) : M PyErr StateDict :=
  outside (torch_load_call p) (w_torch_load W p).
Definition load_state_dict (m : Model) (sd : StateDict) : M PyErr Model :=
  outside (load_state_dict_call m sd) (w_load_state_dict W m sd).

Definition load_model : M PyErr (Model * Tokenizer) :=
  artefacts ← gets ARTEFACTS;
  logger INFO ("Loading model and tokenizer from " ++ artefacts);;
  let tokenizer_path := artefacts / "tokenizer.json" in
  let config_path := artefacts / "config.json" in
  let model_path := artefacts / "model.pth" in
  (* 1. Load Tokenizer *)
  found ← path_exists tokenizer_path;
  if negb found then
    raise (mkErr FileNotFoundError ("Tokenizer file not found at " ++ tokenizer_path))
  else
  tokenizer ← try_except (Tokenizer_from_file tokenizer_path)
    (λ e, raise (mkErr RuntimeError ("Failed to load tokenizer: " ++ py_str e)));
  (* 2. Load Configuration *)
  found ← path_exists config_path;
  if negb found then
    raise (mkErr FileNotFoundError ("Config file not found at " ++ config_path))
  else
  config ← try_except (json_load config_path)
    (λ e, match err_class e with
          | JSONDecodeError =>
              raise (mkErr ValueError ("Invalid JSON in config file: " ++ py_str e))
          | _ => raise e
          end);
  (* 3. Load Model *)
  has_model ← lift (py_in "model" config);
  if negb has_model then
    raise (mkErr ValueError "Config file missing 'model' key")
  else
  model ← try_except (sub ← lift (py_getitem config "model"); SlangRNN sub)
    (λ e, raise (mkErr RuntimeError
                   ("Failed to initialize model architecture: " ++ py_str e)));
  found ← path_exists model_path;
  if negb found then
    raise (mkErr FileNotFoundError ("Model weights not found at " ++ model_path))
  else
  model ← try_except (sd ← torch_load model_path; load_state_dict model sd)
    (λ e, raise (mkErr RuntimeError ("Failed to load model weights: " ++ py_str e)));
  logger SUCCESS "Model and tokenizer loaded successfully";;
  mret (model, tokenizer).

Definition FRONTEND_FOLDER : string := w_resolve W "static".

(** [lifespan] up to its [yield], in the three parts it is written in:
    the folder checks, the [try] statement around [load_model], and the
    closing log line. *)
Definition check_folders : M PyErr unit :=
  found ← path_exists FRONTEND_FOLDER;
  if negb found then
    raise (mkErr FileNotFoundError
             ("Cant find the frontend folder at " ++ FRONTEND_FOLDER))
  else
  artefacts ← gets ARTEFACTS;
  found ← path_exists artefacts;
  if negb found then
    logger WARNING ("Couldnt find artefacts at " ++ artefacts ++ ", trying parent");;
    modify (set_ARTEFACTS (w_resolve W "../artefacts"));;
    artefacts ← gets ARTEFACTS;
    found ← path_exists artefacts;
    if negb found then
      raise (mkErr FileNotFoundError
               ("Cant find the artefacts folder at " ++ artefacts))
    else mret tt
  else mret tt.

Definition setitem (key : string) (v : pyobj) : M PyErr unit :=
  modify (λ σ, set_model_state (<[key := v]> (model_state σ)) σ).

Definition try_load_model : M PyErr unit :=
  try_except
    ('(model, tokenizer) ← load_model;
     setitem "model" (PyModel model);;
     setitem "tokenizer" (PyTokenizer tokenizer))
    (λ e, logger ERROR ("Startup failed: " ++ py_str e)).

Definition lifespan_startup : M PyErr unit :=
  check_folders;;
  try_load_model;;
  logger INFO "Application startup complete".

(** The part of [lifespan] after [yield]. *)
Definition lifespan_shutdown : M PyErr unit :=
  logger INFO "Application shutdown...";;
  modify (set_model_state ∅);;
  logger SUCCESS "Application shutdown complete".

(** ** The endpoints *)

(** [backend.utils.sample_n(n=, model=, tokenizer=, max_length=, temperature=)]. *)
Definition sample_n (n : Z) (model tokenizer : pyobj) (max_length : Z)
    (temperature : Q) : M PyErr (list string) := λ σ,
  let σ' := emit (Call (sample_n_call n model tokenizer max_length temperature)) σ in
  let '(r, g) := w_sample_n W n model tokenizer max_length temperature (rng σ') in
  (r, set_rng g σ').

(** [dict.get] gives [None] for a missing key; [None] is falsy and the
    stored objects are truthy, so [not model or not tokenizer] holds
    exactly when one of the two lookups found nothing. *)
Definition new_words (n : Z) (temperature : Q) : M PyErr (list string) :=
  model ← gets (λ σ, model_state σ !! "model");
  tokenizer ← gets (λ σ, model_state σ !! "tokenizer");
  match model, tokenizer with
  | Some model, Some tokenizer =>
      output_words ← sample_n n model tokenizer 20 temperature;
      mret output_words
  | _, _ => raise (mkErr RuntimeError "Model or Tokenizer not initialized")
  end.

(** What a handler returns: a list of strings, a dict of strings, or a
    [FileResponse]. *)
Inductive retval :=
| RList (l : list string)
| RDict (kvs : list (string * string))
| RFile (path : string).

Definition py_has (key : string) (d : gmap string pyobj) : bool :=
  bool_decide (is_Some (d !! key)).

Definition generate_words (num_words : Z) (temperature : Q) : M exn retval :=
  d ← gets model_state;
  (* Check if model is loaded *)
  if negb (py_has "model" d) || negb (py_has "tokenizer" d) then
    raise (HTTPException 503 "Model not loaded")
  else
    try_except
      (words ← new_words num_words temperature;
       mret (RList words))
      (λ e, logger EXCEPTION ("Error generating words: " ++ py_str e);;
            raise (HTTPException 500 (py_str e))).

Record Word := mkWord { word : string }.

(** [l.remove(x)]: drops the first element equal to [x], and raises
    [ValueError] when there is none. *)
Fixpoint list_remove (x : string) (l : list string) : PyErr + list string :=
  match l with
  | [] => inl (mkErr ValueError "list.remove(x): x not in list")
  | y :: l' =>
      if String.eqb y x then inr l'
      else match list_remove x l' with
           | inl e => inl e
           | inr r => inr (y :: r)
           end
  end.

(** [x in l] on a list of strings. *)
Definition list_in (x : string) (l : list string) : bool :=
  existsb (String.eqb x) l.

Definition get_starred_words : M exn retval :=
  l ← gets starred_words;
  mret (RList l).

Definition add_starred_word (w : Word) : M exn retval :=
  l ← gets starred_words;
  (if negb (list_in (word w) l) then
     modify (λ σ, set_starred_words (starred_words σ ++ [word w]) σ)
   else mret tt);;
  l ← gets starred_words;
  mret (RList l).

Definition remove_starred_word (w : Word) : M exn retval :=
  l ← gets starred_words;
  (if list_in (word w) l then
     match list_remove (word w) l with
     | inl e => raise (PyExc e)
     | inr l' => modify (set_starred_words l')
     end
   else mret tt);;
  l ← gets starred_words;
  mret (RList l).

Definition health : M exn retval :=
  mret (RDict [("status", "ok")]).

Definition read_index : M exn retval :=
  logger INFO "serving index.html";;
  mret (RFile "static/index.html").

(** ** The framework around the handlers *)

(** [Query(default=, ge=, le=)]. *)
Record Query (A : Type) := mkQuery {
  q_default : A;
  q_ge : option A;
  q_le : option A
}.
Arguments mkQuery {A}.
Arguments q_default {A}.
Arguments q_ge {A}.
Arguments q_le {A}.

(** [num_words: int = Query(default=10, ge=1)] and [temperature: float =
    Query(default=1.0, ge=0, le=10)].  A temperature is only compared
    with the bounds and handed on, so the finite floats are taken as the
    rationals they are. *)
Definition num_words_Query : Query Z := mkQuery 10%Z (Some 1%Z) None.
Definition temperature_Query : Query Q := mkQuery 1%Q (Some 0%Q) (Some 10%Q).

Definition in_bounds {A} (leb : A → A → bool) (q : Query A) (v : A) : bool :=
  from_option (λ lo, leb lo v) true (q_ge q)
  && from_option (λ hi, leb v hi) true (q_le q).

(** A query parameter that is absent takes the default; one that is
    present must satisfy the bounds. *)
Definition validate {A} (leb : A → A → bool) (q : Query A) (raw : option A) : option A :=
  match raw with
  | None => Some (q_default q)
  | Some v => if in_bounds leb q v then Some v else None
  end.

Inductive content :=
| Json (v : retval)
| ValidationErrors (params : list string)
| PlainText (s : string).

Record response := Response { status : Z; payload : content }.

(** How the framework answers for a handler: its value with 200, an
    [HTTPException] with its own status and detail, anything else
    uncaught with 500. *)
Definition run_handler (h : M exn retval) (σ : State) : response * State :=
  match h σ with
  | (inr v, σ') => (Response 200 (Json v), σ')
  | (inl (HTTPException c d), σ') => (Response c (Json (RDict [("detail", d)])), σ')
  | (inl (PyExc _), σ') => (Response 500 (PlainText "Internal Server Error"), σ')
  end.

Inductive request :=
| GET_generate (num_words : option Z) (temperature : option Q)
| GET_starred
| POST_starred (w : Word)
| POST_unstarred (w : Word)
| GET_health
| GET_index.

Definition rejected {A} (name : string) (v : option A) : list string :=
  match v with
  | None => [name]
  | Some _ => []
  end.

(** A [FileResponse] looks its file up when it is sent: a handler that
    returns one is answered 200 with the file when the file is there,
    and 500 when it is not. *)
Definition send_file (h : M exn retval) (σ : State) : response * State :=
  match h σ with
  | (inr (RFile path), σ') =>
      let σ'' := emit (Call (FileResponse_call path)) σ' in
      match w_FileResponse W path with
      | inr _ => (Response 200 (Json (RFile path)), σ'')
      | inl _ => (Response 500 (PlainText "Internal Server Error"), σ'')
      end
  | _ => run_handler h σ
  end.

(** The parameters are validated before the handler is entered. *)
Definition handle (r : request) (σ : State) : response * State :=
  match r with
  | GET_generate num_words temperature =>
      match validate Z.leb num_words_Query num_words,
            validate Qle_bool temperature_Query temperature with
      | Some n, Some t => run_handler (generate_words n t) σ
      | n, t =>
          (Response 422 (ValidationErrors
                           (rejected "num_words" n ++ rejected "temperature" t)), σ)
      end
  | GET_starred => run_handler get_starred_words σ
  | POST_starred w => run_handler (add_starred_word w) σ
  | POST_unstarred w => run_handler (remove_starred_word w) σ
  | GET_health => run_handler health σ
  | GET_index => send_file read_index σ
  end.

(** The requests served between start-up and shutdown, in order: the
    handlers are coroutines without an [await], so each runs to its end
    before the next one starts. *)
Fixpoint serve (rs : list request) (σ : State) : list response * State :=
  match rs with
  | [] => ([], σ)
  | r :: rs' =>
      let '(a, σ') := handle r σ in
      let '(answers, σ'') := serve rs' σ' in
      (a :: answers, σ'')
  end.

End App.

(** The module as imported: [model_state = {}], [starred_words = []],
    [ARTEFACTS = Path("artefacts").resolve()]. *)
Definition initial (W : World) (g : Rng) : State :=
  mkState (w_resolve W "artefacts") ∅ [] [] g.

(** ** The sampler

    [backend/utils.py], where [sample_n] lives, is not among the source
    files; this module follows sections 4.1, 4.2 and 4.4 of the
    specification. *)
Module Sampler.

(** Modelled from the spec: the recurrent memory of section 4.2, a
    vector of numbers. *)
Definition HiddenState := list Q.

(** Modelled from the spec: the failures that sections 4.1 and 4.4 name. *)
Definition NotReady : PyErr := mkErr (OtherException "NotReady") "model or tokenizer absent".
Definition InvalidTemperature : PyErr :=
  mkErr (OtherException "InvalidArgument") "temperature must be non-negative".
Definition DecodingError : PyErr :=
  mkErr (OtherException "DecodingError") "token id outside the vocabulary".

(** Modelled from the spec: [Tokenizer.decode] of section 4.1, which is
    library code; an id outside [[0, vocab_size)] is a [DecodingError],
    and the text of a sequence is the text of its tokens, one after the
    other (what the round trip with [encode] requires). *)
Fixpoint decode (tokenizer : Tokenizer) (ids : list nat) : PyErr + string :=
  match ids with
  | [] => inr ""
  | id :: ids' =>
      match vocab tokenizer !! id, decode tokenizer ids' with
      | Some token, inr rest => inr (token ++ rest)
      | _, _ => inl DecodingError
      end
  end.

(** Modelled from the spec: the "single highest-probability token" of
    section 4.4, the position of the first largest logit. *)
Fixpoint argmax_from (best : nat) (best_logit : Q) (i : nat) (logits : list Q) : nat :=
  match logits with
  | [] => best
  | x :: logits' =>
      if Qle_bool x best_logit then argmax_from best best_logit (S i) logits'
      else argmax_from i x (S i) logits'
  end.

Definition argmax (logits : list Q) : nat :=
  match logits with
  | [] => 0
  | x :: logits' => argmax_from 0 x 1 logits'
  end.

Section Sampling.

(** The network ([initial_state] and [step] of section 4.2), the draw
    from the softmax of a list of scaled logits, and the derivation of a
    word's own generator from the call's: floating-point computations
    and randomness, which the sampler is parametric in. *)
Variable initial_state : Model → HiddenState.
Variable step : Model → HiddenState → nat → list Q * HiddenState.
Variable categorical : list Q → Rng → nat * Rng.
Variable split : Rng → Rng * Rng.

(** Modelled from the spec: step 3b of section 4.4, which is missing;
    temperature 0 picks the most likely token, any other temperature
    divides the logits before the draw. *)
Definition draw (temperature : Q) (logits : list Q) (g : Rng) : nat * Rng :=
  if Qeq_bool temperature 0 then (argmax logits, g)
  else categorical (map (λ x, x / temperature)%Q logits) g.

(** Modelled from the spec: the loop of step 3 of section 4.4, which is
    missing; [room] is [max_length - len(produced_ids)]. *)
Fixpoint produce (room : nat) (model : Model) (tokenizer : Tokenizer) (temperature : Q)
    (state : HiddenState) (last_id : nat) (produced_ids : list nat) (g : Rng) : list nat :=
  match room with
  | O => produced_ids
  | S room' =>
      let '(logits, state') := step model state last_id in
      let '(id, g') := draw temperature logits g in
      if Nat.eqb id (end_token tokenizer) then produced_ids
      else produce room' model tokenizer temperature state' id (produced_ids ++ [id]) g'
  end.

(** Modelled from the spec: steps 1 to 3 of section 4.4, which are
    missing: the ids of one word. *)
Definition sample_ids (model : Model) (tokenizer : Tokenizer) (max_length : Z)
    (temperature : Q) (g : Rng) : list nat :=
  produce (Z.to_nat max_length) model tokenizer temperature
    (initial_state model) (start_token tokenizer) [] g.

(** Modelled from the spec: step 4 of section 4.4, which is missing. *)
Definition sample_word (model : Model) (tokenizer : Tokenizer) (max_length : Z)
    (temperature : Q) (g : Rng) : PyErr + string :=
  decode tokenizer (sample_ids model tokenizer max_length temperature g).

(** Modelled from the spec: step 5 of section 4.4, which is missing;
    every word has a generator of its own, and a word that fails aborts
    the call. *)
Fixpoint sample_words (n : nat) (model : Model) (tokenizer : Tokenizer) (max_length : Z)
    (temperature : Q) (g : Rng) : (PyErr + list string) * Rng :=
  match n with
  | O => (inr [], g)
  | S n' =>
      let '(mine, others) := split g in
      match sample_word model tokenizer max_length temperature mine with
      | inl e => (inl e, others)
      | inr w =>
          match sample_words n' model tokenizer max_length temperature others with
          | (inl e, g') => (inl e, g')
          | (inr ws, g') => (inr (w :: ws), g')
          end
      end
  end.

(** Modelled from the spec: [sample_n] of section 4.4, which is missing;
    it needs a model and a tokenizer and refuses a negative temperature. *)
Definition sample_n (n : Z) (model tokenizer : pyobj) (max_length : Z)
    (temperature : Q) (g : Rng) : (PyErr + list string) * Rng :=
  match model, tokenizer with
  | PyModel m, PyTokenizer t =>
      if Qle_bool 0 temperature then
        sample_words (Z.to_nat n) m t max_length temperature g
      else (inl InvalidTemperature, g)
  | _, _ => (inl NotReady, g)
  end.

End Sampling.

End Sampler.


(** ** Vocabulary for the statements *)

(** The state after further effects have been recorded. *)
Definition add_events (evs : list event) (σ : State) : State :=
  foldl (λ s e, emit e s) σ evs.

Definition calls (evs : list event) : list call :=
  omap (λ e, match e with Call c => Some c | Log _ _ => None end) evs.

(** The calls of a complete [load_model], in the order of the source:
    tokenizer, configuration, architecture, weights. *)
Definition load_calls (artefacts : string) (config_model : json) (m : Model)
    (sd : StateDict) : list call :=
  [ path_exists_call (artefacts / "tokenizer.json");
    Tokenizer_from_file_call (artefacts / "tokenizer.json");
    path_exists_call (artefacts / "config.json");
    json_load_call (artefacts / "config.json");
    SlangRNN_call config_model;
    path_exists_call (artefacts / "model.pth");
    torch_load_call (artefacts / "model.pth");
    load_state_dict_call m sd ].

(** Every step of [load_model] goes through in the directory
    [artefacts], and yields [m] and [tk]. *)
Definition artefacts_load (W : World) (artefacts : string) (m : Model)
    (tk : Tokenizer) : Prop :=
  ∃ (config config_model : json) (m0 : Model) (sd : StateDict),
    w_exists W (artefacts / "tokenizer.json") = inr true
    ∧ w_from_file W (artefacts / "tokenizer.json") = inr tk
    ∧ w_exists W (artefacts / "config.json") = inr true
    ∧ w_json_load W (artefacts / "config.json") = inr config
    ∧ py_in "model" config = inr true
    ∧ py_getitem config "model" = inr config_model
    ∧ w_SlangRNN W config_model = inr m0
    ∧ w_exists W (artefacts / "model.pth") = inr true
    ∧ w_torch_load W (artefacts / "model.pth") = inr sd
    ∧ w_load_state_dict W m0 sd = inr m.

(** The registry holds nothing / holds both entries. *)
Definition NotLoaded (σ : State) : Prop :=
  model_state σ !! "model" = None ∧ model_state σ !! "tokenizer" = None.

Definition Loaded (σ : State) : Prop :=
  is_Some (model_state σ !! "model") ∧ is_Some (model_state σ !! "tokenizer").

(** The ways a step of [load_model] can fail in the directory
    [artefacts]. *)
Inductive load_failure (W : World) (artefacts : string) : Prop :=
| tokenizer_missing :
    w_exists W (artefacts / "tokenizer.json") = inr false →
    load_failure W artefacts
| tokenizer_unreachable (e : PyErr) :
    w_exists W (artefacts / "tokenizer.json") = inl e →
    load_failure W artefacts
| tokenizer_unloadable (e : PyErr) :
    w_from_file W (artefacts / "tokenizer.json") = inl e →
    load_failure W artefacts
| config_missing :
    w_exists W (artefacts / "config.json") = inr false →
    load_failure W artefacts
| config_unreachable (e : PyErr) :
    w_exists W (artefacts / "config.json") = inl e →
    load_failure W artefacts
| config_malformed (e : PyErr) :
    w_json_load W (artefacts / "config.json") = inl e →
    load_failure W artefacts
| model_key_missing (config : json) :
    w_json_load W (artefacts / "config.json") = inr config →
    py_in "model" config ≠ inr true →
    load_failure W artefacts
| architecture_failure (config : json) (e : PyErr) :
    w_json_load W (artefacts / "config.json") = inr config →
    match py_getitem config "model" with
    | inl e' => inl e'
    | inr config_model => w_SlangRNN W config_model
    end = inl e →
    load_failure W artefacts
| weights_missing :
    w_exists W (artefacts / "model.pth") = inr false →
    load_failure W artefacts
| weights_unreachable (e : PyErr) :
    w_exists W (artefacts / "model.pth") = inl e →
    load_failure W artefacts
| weights_unreadable (e : PyErr) :
    w_torch_load W (artefacts / "model.pth") = inl e →
    load_failure W artefacts
| weights_incompatible (config config_model : json) (m0 : Model) (sd : StateDict)
    (e : PyErr) :
    w_json_load W (artefacts / "config.json") = inr config →
    py_getitem config "model" = inr config_model →
    w_SlangRNN W config_model = inr m0 →
    w_torch_load W (artefacts / "model.pth") = inr sd →
    w_load_state_dict W m0 sd = inl e →
    load_failure W artefacts.

(** ** Sample deployments *)

Module Demo.

(** A network in the manner of the specification's scenario B: whatever
    the history, token 2 is the most likely one. *)
Definition initial_state (m : Model) : Sampler.HiddenState := [].
Definition step (m : Model) (h : Sampler.HiddenState) (id : nat)
    : list Q * Sampler.HiddenState := ([0; 0; 1]%Q, h).
Definition categorical (logits : list Q) (g : Rng) : nat * Rng :=
  (Sampler.argmax logits, g).
Definition split (g : Rng) : Rng * Rng := (g, g).

Definition sample_n := Sampler.sample_n initial_state step categorical split.

Definition tokenizer : Tokenizer := mkTokenizer ["^"; "$"; "a"] 0 1.
Definition config : json :=
  JDict [("model", JDict [("vocab", JInt 3); ("embedding_dim", JInt 16);
                          ("hidden_dim", JInt 32); ("num_layers", JInt 1)])].
Definition architecture : Model := mkModel (mkConfig 3 16 32 1) None.
Definition weights : StateDict := [(1 # 2); (-3 # 4)]%Q.

Definition install (m : Model) (sd : StateDict) : PyErr + Model :=
  inr (mkModel (model_config m) (Some sd)).

Definition index_html : string := "<!DOCTYPE html><title>planets</title>".

(** Every artefact is in place. *)
Definition world : World :=
  mkWorld (λ p, "/app" / p) (λ _, inr true) (λ _, inr tokenizer) (λ _, inr config)
    (λ _, inr architecture) (λ _, inr weights) install sample_n (λ _, inr index_html).

(** The weights file is missing (scenario C of the specification). *)
Definition no_weights : World :=
  mkWorld (λ p, "/app" / p)
    (λ p, inr (negb (String.eqb p "/app/artefacts/model.pth")))
    (λ _, inr tokenizer) (λ _, inr config)
    (λ _, inr architecture) (λ _, inr weights) install sample_n (λ _, inr index_html).

(** The configuration file asks for 50 tokens, the tokenizer file holds
    3. *)
Definition wide_config : json :=
  JDict [("model", JDict [("vocab", JInt 50); ("embedding_dim", JInt 16);
                          ("hidden_dim", JInt 32); ("num_layers", JInt 1)])].

(** Modelled from the spec: [SlangRNN] is library code; it builds the
    architecture from the hyperparameters of section 3 (Model
    Configuration), which it reads from the entries of the configuration
    it is given. *)
Definition size_entry (key : string) (config_model : json) : PyErr + nat :=
  match py_getitem config_model key with
  | inl e => inl e
  | inr (JInt z) => inr (Z.to_nat z)
  | inr _ => inl (mkErr TypeError ("'" ++ key ++ "' must be an integer"))
  end.

Definition construct (config_model : json) : PyErr + Model :=
  match size_entry "vocab" config_model with
  | inl e => inl e
  | inr v =>
      match size_entry "embedding_dim" config_model with
      | inl e => inl e
      | inr d =>
          match size_entry "hidden_dim" config_model with
          | inl e => inl e
          | inr h =>
              match size_entry "num_layers" config_model with
              | inl e => inl e
              | inr l => inr (mkModel (mkConfig v d h l) None)
              end
          end
      end
  end.

Definition mismatch : World :=
  mkWorld (λ p, "/app" / p) (λ _, inr true) (λ _, inr tokenizer) (λ _, inr wide_config)
    construct (λ _, inr weights) install sample_n (λ _, inr index_html).

(** The sampler breaks down. *)
Definition breakdown : PyErr :=
  mkErr RuntimeError "size mismatch for rnn.weight_ih_l0 at /app/artefacts/model.pth".
Definition broken_sampler : World :=
  mkWorld (λ p, "/app" / p) (λ _, inr true) (λ _, inr tokenizer) (λ _, inr config)
    (λ _, inr architecture) (λ _, inr weights) install
    (λ _ _ _ _ _ g, (inl breakdown, g)) (λ _, inr index_html).

(** A vocabulary of subword tokens. *)
Definition subword_tokenizer : Tokenizer := mkTokenizer ["^"; "$"; "ab"] 0 1.
Definition subwords : World :=
  mkWorld (λ p, "/app" / p) (λ _, inr true) (λ _, inr subword_tokenizer)
    (λ _, inr config)
    (λ _, inr architecture) (λ _, inr weights) install sample_n (λ _, inr index_html).

(** The state of a process that has started in a world, and has then
    served some requests. *)
Definition started (W : World) : State := (lifespan_startup W (initial W [])).2.
Definition running (W : World) (rs : list request) : State := (serve W rs (started W)).2.

End Demo.

(** ** Vocabulary for the statements about requests and favourites *)

Definition is_sample_n_call (c : call) : bool :=
  match c with
  | sample_n_call _ _ _ _ _ => true
  | _ => false
  end.

(** How often the sampler has been called in a history. *)
Definition sampler_calls (evs : list event) : nat :=
  length (filter (λ c, is_sample_n_call c) (calls evs)).



(** A request to the generate endpoint whose parameters pass the
    validation. *)
Definition accepted (r : request) : bool :=
  match r with
  | GET_generate num_words temperature =>
      match validate Z.leb num_words_Query num_words,
            validate Qle_bool temperature_Query temperature with
      | Some _, Some _ => true
      | _, _ => false
      end
  | _ => false
  end.

(** The favourites as a set, and what a request means for that set. *)
Definition favourites (σ : State) : gset string := list_to_set (starred_words σ).

Definition on_favourites (r : request) (S : gset string) : gset string :=
  match r with
  | POST_starred w => S ∪ {[word w]}
  | POST_unstarred w => S ∖ {[word w]}
  | _ => S
  end.

(** The exceptions of [load_model] in the directory [artefacts], each
    with the first step that fails. *)
Inductive load_raises (W : World) (artefacts : string) : PyErr → Prop :=
| raises_tokenizer_missing :
    w_exists W (artefacts / "tokenizer.json") = inr false →
    load_raises W artefacts
      (mkErr FileNotFoundError
         ("Tokenizer file not found at " ++ artefacts / "tokenizer.json"))
| raises_tokenizer_unreachable (e : PyErr) :
    w_exists W (artefacts / "tokenizer.json") = inl e →
    load_raises W artefacts e
| raises_tokenizer_unloadable (e : PyErr) :
    w_exists W (artefacts / "tokenizer.json") = inr true →
    w_from_file W (artefacts / "tokenizer.json") = inl e →
    load_raises W artefacts
      (mkErr RuntimeError ("Failed to load tokenizer: " ++ py_str e))
| raises_after_tokenizer (tk : Tokenizer) (e : PyErr) :
    w_exists W (artefacts / "tokenizer.json") = inr true →
    w_from_file W (artefacts / "tokenizer.json") = inr tk →
    config_raises W artefacts e →
    load_raises W artefacts e
with config_raises (W : World) (artefacts : string) : PyErr → Prop :=
| raises_config_missing :
    w_exists W (artefacts / "config.json") = inr false →
    config_raises W artefacts
      (mkErr FileNotFoundError ("Config file not found at " ++ artefacts / "config.json"))
| raises_config_unreachable (e : PyErr) :
    w_exists W (artefacts / "config.json") = inl e →
    config_raises W artefacts e
| raises_invalid_json (e : PyErr) :
    w_exists W (artefacts / "config.json") = inr true →
    w_json_load W (artefacts / "config.json") = inl e →
    err_class e = JSONDecodeError →
    config_raises W artefacts
      (mkErr ValueError ("Invalid JSON in config file: " ++ py_str e))
| raises_unreadable_config (e : PyErr) :
    w_exists W (artefacts / "config.json") = inr true →
    w_json_load W (artefacts / "config.json") = inl e →
    err_class e ≠ JSONDecodeError →
    config_raises W artefacts e
| raises_after_config (config : json) (e : PyErr) :
    w_exists W (artefacts / "config.json") = inr true →
    w_json_load W (artefacts / "config.json") = inr config →
    model_raises W artefacts config e →
    config_raises W artefacts e
with model_raises (W : World) (artefacts : string) : json → PyErr → Prop :=
| raises_not_a_container (config : json) (e : PyErr) :
    py_in "model" config = inl e →
    model_raises W artefacts config e
| raises_no_model_key (config : json) :
    py_in "model" config = inr false →
    model_raises W artefacts config
      (mkErr ValueError "Config file missing 'model' key")
| raises_no_model_entry (config : json) (e : PyErr) :
    py_in "model" config = inr true →
    py_getitem config "model" = inl e →
    model_raises W artefacts config
      (mkErr RuntimeError ("Failed to initialize model architecture: " ++ py_str e))
| raises_architecture (config config_model : json) (e : PyErr) :
    py_in "model" config = inr true →
    py_getitem config "model" = inr config_model →
    w_SlangRNN W config_model = inl e →
    model_raises W artefacts config
      (mkErr RuntimeError ("Failed to initialize model architecture: " ++ py_str e))
| raises_weights_missing (config config_model : json) (m0 : Model) :
    py_in "model" config = inr true →
    py_getitem config "model" = inr config_model →
    w_SlangRNN W config_model = inr m0 →
    w_exists W (artefacts / "model.pth") = inr false →
    model_raises W artefacts config
      (mkErr FileNotFoundError ("Model weights not found at " ++ artefacts / "model.pth"))
| raises_weights_unreachable (config config_model : json) (m0 : Model) (e : PyErr) :
    py_in "model" config = inr true →
    py_getitem config "model" = inr config_model →
    w_SlangRNN W config_model = inr m0 →
    w_exists W (artefacts / "model.pth") = inl e →
    model_raises W artefacts config e
| raises_weights_unreadable (config config_model : json) (m0 : Model) (e : PyErr) :
    py_in "model" config = inr true →
    py_getitem config "model" = inr config_model →
    w_SlangRNN W config_model = inr m0 →
    w_exists W (artefacts / "model.pth") = inr true →
    w_torch_load W (artefacts / "model.pth") = inl e →
    model_raises W artefacts config
      (mkErr RuntimeError ("Failed to load model weights: " ++ py_str e))
| raises_weights_incompatible (config config_model : json) (m0 : Model)
    (sd : StateDict) (e : PyErr) :
    py_in "model" config = inr true →
    py_getitem config "model" = inr config_model →
    w_SlangRNN W config_model = inr m0 →
    w_exists W (artefacts / "model.pth") = inr true →
    w_torch_load W (artefacts / "model.pth") = inr sd →
    w_load_state_dict W m0 sd = inl e →
    model_raises W artefacts config
      (mkErr RuntimeError ("Failed to load model weights: " ++ py_str e)).



(** ** The stand-in sampler of the test suite

    [tests/test_generation.py] replaces [sample_n] by a generator of
    random lower-case words.  The generator of the module [random] is
    the stream of draws [Rng]: each call consumes one draw (an exhausted
    stream goes on with zeros) and reduces it to the range asked for, so
    that every outcome the library can produce is the outcome of some
    stream. *)
Module TestDoubles.

Definition next_draw (g : Rng) : N * Rng :=
  match g with
  | [] => (0%N, [])
  | r :: g' => (r, g')
  end.

(** [random.randint(a, b)]: an integer of [[a, b]], a [ValueError] when
    the range is empty. *)
Definition randint (a b : Z) (g : Rng) : (PyErr + Z) * Rng :=
  if (b <? a)%Z then (inl (mkErr ValueError "empty range for randrange()"), g)
  else let '(r, g') := next_draw g in
       (inr (a + Z.of_N r mod (b - a + 1))%Z, g').

Definition ascii_lowercase : string := "abcdefghijklmnopqrstuvwxyz".

(** ["".join(random.choices(population, k=k))]: [k] characters of
    [population], each at a drawn position; an [IndexError] when a
    character is asked of an empty population. *)
Fixpoint choices (population : string) (k : nat) (g : Rng) : (PyErr + string) * Rng :=
  match k with
  | O => (inr "", g)
  | S k' =>
      let '(r, g') := next_draw g in
      match String.get (N.to_nat r mod String.length population) population with
      | None => (inl (mkErr (OtherException "IndexError") "string index out of range"), g')
      | Some c =>
          match choices population k' g' with
          | (inl e, g'') => (inl e, g'')
          | (inr s, g'') => (inr (String c s), g'')
          end
      end
  end.

(** The loop of [mock_sample_n_implementation], [n] being the number of
    rounds left. *)
Fixpoint mock_words (n : nat) (max_length : Z) (g : Rng) : (PyErr + list string) * Rng :=
  match n with
  | O => (inr [], g)
  | S n' =>
      match randint 1 max_length g with
      | (inl e, g1) => (inl e, g1)
      | (inr current_len, g1) =>
          match choices ascii_lowercase (Z.to_nat current_len) g1 with
          | (inl e, g2) => (inl e, g2)
          | (inr random_word, g2) =>
              match mock_words n' max_length g2 with
              | (inl e, g3) => (inl e, g3)
              | (inr results, g3) => (inr (random_word :: results), g3)
              end
          end
      end
  end.

Definition mock_sample_n_implementation (n : Z) (model tokenizer : pyobj)
    (max_length : Z) (temperature : Q) (g : Rng) : (PyErr + list string) * Rng :=
  mock_words (Z.to_nat n) max_length g.

(** A world in which [sample_n] is patched with the stand-in. *)
Definition patched : World :=
  mkWorld (λ p, "/app" / p) (λ _, inr true) (λ _, inr Demo.tokenizer)
    (λ _, inr Demo.config)
    (λ _, inr Demo.architecture) (λ _, inr Demo.weights) Demo.install
    mock_sample_n_implementation (λ _, inr Demo.index_html).

End TestDoubles.
(** * Properties *)

(** ** Lists and dictionaries *)

Lemma list_in_spec (x : string) (l : list string) : list_in x l = true ↔ x ∈ l.
Proof.
  unfold list_in. induction l as [|y l IH]; simpl.
  - split; [discriminate | intros H; inversion H].
  - rewrite orb_true_iff, IH, String.eqb_eq, elem_of_cons. tauto.
Qed.

Lemma list_in_false (x : string) (l : list string) : list_in x l = false ↔ x ∉ l.
Proof.
  rewrite <- list_in_spec. destruct (list_in x l); split; congruence.
Qed.

(** Removing an absent element is the one way [list.remove] fails. *)
Lemma list_remove_absent (x : string) (l : list string) :
  x ∉ l → list_remove x l = inl (mkErr ValueError "list.remove(x): x not in list").
Proof.
  induction l as [|y l IH]; simpl; intros Hx; [done|].
  apply not_elem_of_cons in Hx as [Hne Hx].
  destruct (String.eqb_spec y x) as [->|_]; [done|]. by rewrite IH.
Qed.

Lemma filter_other (x : string) (l : list string) :
  x ∉ l → filter (λ y, y ≠ x) l = l.
Proof.
  induction l as [|y l IH]; intros Hx; [done|].
  apply not_elem_of_cons in Hx as [Hne Hx].
  rewrite filter_cons_True by congruence. by rewrite IH.
Qed.

(** On a list without repetition, [remove] leaves exactly the other
    elements, in their order. *)
Lemma list_remove_NoDup (x : string) (l : list string) :
  NoDup l → x ∈ l → list_remove x l = inr (filter (λ y, y ≠ x) l).
Proof.
  induction 1 as [|y l Hy Hnd IH]; simpl; intros Hx; [inversion Hx|].
  destruct (String.eqb_spec y x) as [->|Hne].
  - rewrite filter_cons_False by (intros H; by apply H).
    by rewrite filter_other.
  - apply elem_of_cons in Hx as [->|Hx]; [done|].
    rewrite IH by done. by rewrite filter_cons_True.
Qed.

(** ** The favourites list *)

Ltac run_monad :=
  unfold mbind, M_bind, mret, M_ret, gets, modify, raise, try_except, lift, logger;
  simpl.

Lemma set_starred_words_id (σ : State) : set_starred_words (starred_words σ) σ = σ.
Proof. by destruct σ. Qed.

Lemma get_starred_words_run (σ : State) :
  get_starred_words σ = (inr (RList (starred_words σ)), σ).
Proof. reflexivity. Qed.

Lemma add_starred_word_run (w : Word) (σ : State) :
  add_starred_word w σ =
    let l' := if decide (word w ∈ starred_words σ) then starred_words σ
              else (starred_words σ ++ [word w])%list in
    (inr (RList l'), set_starred_words l' σ).
Proof.
  unfold add_starred_word. run_monad.
  destruct (decide (word w ∈ starred_words σ)) as [Hin|Hin].
  - apply list_in_spec in Hin as ->. simpl. by rewrite set_starred_words_id.
  - apply list_in_false in Hin as ->. reflexivity.
Qed.

Lemma remove_starred_word_absent (w : Word) (σ : State) :
  word w ∉ starred_words σ →
  remove_starred_word w σ = (inr (RList (starred_words σ)), σ).
Proof.
  intros Hin. unfold remove_starred_word. run_monad.
  by apply list_in_false in Hin as ->.
Qed.

Lemma remove_starred_word_run (w : Word) (σ : State) :
  NoDup (starred_words σ) →
  remove_starred_word w σ =
    let l' := filter (λ y, y ≠ word w) (starred_words σ) in
    (inr (RList l'), set_starred_words l' σ).
Proof.
  intros Hnd. destruct (decide (word w ∈ starred_words σ)) as [Hin|Hin].
  - unfold remove_starred_word. run_monad.
    pose proof Hin as Hb. apply list_in_spec in Hb as ->.
    by rewrite list_remove_NoDup.
  - rewrite remove_starred_word_absent by done. simpl.
    rewrite filter_other by done. by rewrite set_starred_words_id.
Qed.

(** ** The generate endpoint *)

Section Generate.

Variable W : World.

Lemma py_has_true (key : string) (d : gmap string pyobj) (v : pyobj) :
  d !! key = Some v → py_has key d = true.
Proof. intros H. unfold py_has. rewrite H. by apply bool_decide_eq_true. Qed.

Lemma py_has_false (key : string) (d : gmap string pyobj) :
  d !! key = None → py_has key d = false.
Proof.
  intros H. unfold py_has. rewrite H. apply bool_decide_eq_false.
  by intros [? ?].
Qed.

Lemma generate_words_unloaded (n : Z) (t : Q) (σ : State) :
  model_state σ !! "model" = None ∨ model_state σ !! "tokenizer" = None →
  generate_words W n t σ = (inl (HTTPException 503 "Model not loaded"), σ).
Proof.
  intros H. unfold generate_words. run_monad.
  destruct H as [H|H]; rewrite (py_has_false _ _ H); simpl;
    [done | by rewrite orb_true_r].
Qed.

(** With both entries present the handler calls the sampler once, with
    [max_length=20], and turns what it raises into a 500. *)
Lemma generate_words_loaded (n : Z) (t : Q) (σ : State) (m tk : pyobj) :
  model_state σ !! "model" = Some m →
  model_state σ !! "tokenizer" = Some tk →
  generate_words W n t σ =
    let σ' := emit (Call (sample_n_call n m tk 20 t)) σ in
    match w_sample_n W n m tk 20 t (rng σ) with
    | (inr ws, g) => (inr (RList ws), set_rng g σ')
    | (inl e, g) =>
        (inl (HTTPException 500 (py_str e)),
         emit (Log EXCEPTION ("Error generating words: " ++ py_str e)) (set_rng g σ'))
    end.
Proof.
  intros Hm Ht. unfold generate_words, new_words, sample_n. run_monad.
  rewrite (py_has_true _ _ _ Hm), (py_has_true _ _ _ Ht). simpl.
  rewrite Hm, Ht. simpl.
  by destruct (w_sample_n W n m tk 20 t (rng σ)) as [[e|ws] g].
Qed.

Lemma generate_words_model_state (n : Z) (t : Q) (σ : State) :
  model_state (generate_words W n t σ).2 = model_state σ.
Proof.
  destruct (model_state σ !! "model") as [m|] eqn:Hm;
    [|by rewrite generate_words_unloaded by auto].
  destruct (model_state σ !! "tokenizer") as [tk|] eqn:Ht;
    [|by rewrite generate_words_unloaded by auto].
  rewrite (generate_words_loaded _ _ _ _ _ Hm Ht). simpl.
  by destruct (w_sample_n W n m tk 20 t (rng σ)) as [[e|ws] g].
Qed.

Lemma generate_words_starred_words (n : Z) (t : Q) (σ : State) :
  starred_words (generate_words W n t σ).2 = starred_words σ.
Proof.
  destruct (model_state σ !! "model") as [m|] eqn:Hm;
    [|by rewrite generate_words_unloaded by auto].
  destruct (model_state σ !! "tokenizer") as [tk|] eqn:Ht;
    [|by rewrite generate_words_unloaded by auto].
  rewrite (generate_words_loaded _ _ _ _ _ Hm Ht). simpl.
  by destruct (w_sample_n W n m tk 20 t (rng σ)) as [[e|ws] g].
Qed.

Lemma run_handler_snd (h : M exn retval) (σ : State) :
  (run_handler h σ).2 = (h σ).2.
Proof. unfold run_handler. by destruct (h σ) as [[[e|c d]|v] σ']. Qed.

(** No request touches the registry. *)
Lemma handle_model_state (r : request) (σ : State) :
  model_state (handle W r σ).2 = model_state σ.
Proof.
  destruct r as [n t| |w|w| |]; simpl.
  - destruct (validate Z.leb num_words_Query n), (validate Qle_bool temperature_Query t);
      simpl; try done.
    rewrite run_handler_snd. apply generate_words_model_state.
  - done.
  - rewrite run_handler_snd, add_starred_word_run. done.
  - rewrite run_handler_snd. unfold remove_starred_word. run_monad.
    destruct (list_in (word w) (starred_words σ)); [|done].
    by destruct (list_remove (word w) (starred_words σ)).
  - done.
  - unfold send_file. simpl. by destruct (w_FileResponse W "static/index.html").
Qed.

Lemma serve_model_state (rs : list request) (σ : State) :
  model_state (serve W rs σ).2 = model_state σ.
Proof.
  revert σ. induction rs as [|r rs IH]; intros σ; simpl; [done|].
  destruct (handle W r σ) as [a σ'] eqn:Hr.
  specialize (IH σ'). destruct (serve W rs σ') as [answers σ'']. simpl in *.
  rewrite IH. by rewrite <- (handle_model_state r σ), Hr.
Qed.

(** The favourites stay free of repetitions. *)
Lemma handle_NoDup (r : request) (σ : State) :
  NoDup (starred_words σ) → NoDup (starred_words (handle W r σ).2).
Proof.
  intros Hnd. destruct r as [n t| |w|w| |]; simpl.
  - destruct (validate Z.leb num_words_Query n), (validate Qle_bool temperature_Query t);
      simpl; try done.
    by rewrite run_handler_snd, generate_words_starred_words.
  - done.
  - rewrite run_handler_snd, add_starred_word_run. simpl.
    destruct (decide (word w ∈ starred_words σ)) as [Hin|Hin]; [done|].
    apply NoDup_app. split_and!; [done | | apply NoDup_singleton].
    intros x Hx ->%list_elem_of_singleton. done.
  - rewrite run_handler_snd, remove_starred_word_run by done. simpl.
    by apply NoDup_filter.
  - done.
  - unfold send_file. simpl. by destruct (w_FileResponse W "static/index.html").
Qed.

Lemma serve_NoDup (rs : list request) (σ : State) :
  NoDup (starred_words σ) → NoDup (starred_words (serve W rs σ).2).
Proof.
  revert σ. induction rs as [|r rs IH]; intros σ Hnd; simpl; [done|].
  pose proof (handle_NoDup r σ Hnd) as Hr.
  destruct (handle W r σ) as [a σ']. specialize (IH σ' Hr).
  by destruct (serve W rs σ') as [answers σ''].
Qed.

End Generate.

(** ** Loading *)

Lemma add_events_snoc (evs : list event) (e : event) (σ : State) :
  emit e (add_events evs σ) = add_events (evs ++ [e]) σ.
Proof. unfold add_events. by rewrite foldl_app. Qed.

Lemma add_events_globals (evs : list event) (σ : State) :
  ARTEFACTS (add_events evs σ) = ARTEFACTS σ
  ∧ model_state (add_events evs σ) = model_state σ
  ∧ starred_words (add_events evs σ) = starred_words σ
  ∧ rng (add_events evs σ) = rng σ
  ∧ events (add_events evs σ) = (events σ ++ evs)%list.
Proof.
  revert σ. induction evs as [|e evs IH]; intros σ; simpl.
  - by rewrite app_nil_r.
  - destruct (IH (emit e σ)) as (-> & -> & -> & -> & ->). simpl.
    by rewrite <- app_assoc.
Qed.

Ltac unfold_load :=
  unfold load_model, path_exists, Tokenizer_from_file, json_load, SlangRNN,
    torch_load, load_state_dict, outside;
  run_monad.

(** Splits on the next answer of the outside world. *)
Ltac next_answer :=
  match goal with
  | |- context [w_exists ?W ?p] => destruct (w_exists W p) as [?|[|]] eqn:?
  | |- context [w_from_file ?W ?p] => destruct (w_from_file W p) as [?|?] eqn:?
  | |- context [w_json_load ?W ?p] => destruct (w_json_load W p) as [?|?] eqn:?
  | |- context [err_class ?e] => destruct (err_class e) eqn:?
  | |- context [py_in ?k ?c] => destruct (py_in k c) as [?|[|]] eqn:?
  | |- context [py_getitem ?c ?k] => destruct (py_getitem c k) as [?|?] eqn:?
  | |- context [w_SlangRNN ?W ?c] => destruct (w_SlangRNN W c) as [?|?] eqn:?
  | |- context [w_torch_load ?W ?p] => destruct (w_torch_load W p) as [?|?] eqn:?
  | |- context [w_load_state_dict ?W ?m ?sd] =>
      destruct (w_load_state_dict W m sd) as [?|?] eqn:?
  end; simpl.

Ltac recorded σ s :=
  lazymatch s with
  | emit ?e ?s' => let r := recorded σ s' in constr:((r ++ [e])%list)
  | σ => constr:(@nil event)
  end.

(** [load_model] only reads [ARTEFACTS] and records effects; the calls
    it makes are an initial segment of [load_calls]. *)
Lemma load_model_trace (W : World) (σ : State) :
  ∃ evs, (load_model W σ).2 = add_events evs σ
    ∧ ∃ cm m0 sd, calls evs `prefix_of` load_calls (ARTEFACTS σ) cm m0 sd.
Proof.
  unfold_load. repeat next_answer;
  match goal with
  | |- ∃ evs, ?s = _ ∧ _ =>
      let r := recorded σ s in exists r; split; [reflexivity|]
  end; simpl;
  unshelve (eexists _, _, _; eexists; reflexivity);
  first [exact JNull | exact (mkModel (mkConfig 0 0 0 0) None) | exact []].
Qed.

(** What a complete load records. *)
Lemma load_model_complete (W : World) (σ : State) (config cm : json)
    (m0 m : Model) (sd : StateDict) (tk : Tokenizer) :
  let artefacts := ARTEFACTS σ in
  w_exists W (artefacts / "tokenizer.json") = inr true →
  w_from_file W (artefacts / "tokenizer.json") = inr tk →
  w_exists W (artefacts / "config.json") = inr true →
  w_json_load W (artefacts / "config.json") = inr config →
  py_in "model" config = inr true →
  py_getitem config "model" = inr cm →
  w_SlangRNN W cm = inr m0 →
  w_exists W (artefacts / "model.pth") = inr true →
  w_torch_load W (artefacts / "model.pth") = inr sd →
  w_load_state_dict W m0 sd = inr m →
  load_model W σ =
    (inr (m, tk),
     add_events
       (Log INFO ("Loading model and tokenizer from " ++ artefacts)
        :: map Call (load_calls artefacts cm m0 sd)
        ++ [Log SUCCESS "Model and tokenizer loaded successfully"])%list σ).
Proof.
  intros artefacts H1 H2 H3 H4 H5 H6 H7 H8 H9 H10. subst artefacts.
  unfold_load.
  rewrite H1; simpl. rewrite H2; simpl. rewrite H3; simpl. rewrite H4; simpl.
  rewrite H5; simpl. rewrite H6; simpl. rewrite H7; simpl. rewrite H8; simpl.
  rewrite H9; simpl. rewrite H10; simpl. reflexivity.
Qed.

Lemma load_model_success (W : World) (σ : State) (m : Model) (tk : Tokenizer) :
  (∃ σ', load_model W σ = (inr (m, tk), σ')) ↔ artefacts_load W (ARTEFACTS σ) m tk.
Proof.
  split.
  - intros [σ' H]. revert H. unfold_load.
    repeat next_answer; intros [= <- <-] || intros [=].
    unfold artefacts_load. eexists _, _, _, _. split_and!; eassumption.
  - intros (config & cm & m0 & sd & H1 & H2 & H3 & H4 & H5 & H6 & H7 & H8 & H9 & H10).
    eexists. by eapply load_model_complete.
Qed.

Lemma load_model_globals (W : World) (σ : State) :
  ARTEFACTS (load_model W σ).2 = ARTEFACTS σ
  ∧ model_state (load_model W σ).2 = model_state σ
  ∧ starred_words (load_model W σ).2 = starred_words σ
  ∧ rng (load_model W σ).2 = rng σ.
Proof.
  destruct (load_model_trace W σ) as (evs & -> & _).
  destruct (add_events_globals evs σ) as (? & ? & ? & ? & _). done.
Qed.

(** The [try] statement of [lifespan]: it never raises; it publishes both
    entries after a complete load and nothing otherwise. *)
Lemma try_load_model_failure (W : World) (σ σ' : State) (e : PyErr) :
  load_model W σ = (inl e, σ') →
  try_load_model W σ = (inr tt, emit (Log ERROR ("Startup failed: " ++ py_str e)) σ').
Proof.
  intros H. unfold try_load_model. run_monad. by rewrite H.
Qed.

Lemma try_load_model_success (W : World) (σ σ' : State) (m : Model) (tk : Tokenizer) :
  load_model W σ = (inr (m, tk), σ') →
  try_load_model W σ =
    (inr tt,
     set_model_state
       (<["tokenizer" := PyTokenizer tk]> (<["model" := PyModel m]> (model_state σ'))) σ').
Proof.
  intros H. unfold try_load_model, setitem. run_monad. by rewrite H.
Qed.

Lemma check_folders_globals (W : World) (σ : State) :
  model_state (check_folders W σ).2 = model_state σ
  ∧ starred_words (check_folders W σ).2 = starred_words σ
  ∧ rng (check_folders W σ).2 = rng σ.
Proof.
  unfold check_folders, path_exists, outside. run_monad.
  repeat next_answer; done.
Qed.

Lemma try_load_model_returns (W : World) (σ : State) :
  (try_load_model W σ).1 = inr tt.
Proof.
  destruct (load_model W σ) as [[e|[m tk]] σ'] eqn:H.
  - by rewrite (try_load_model_failure _ _ _ _ H).
  - by rewrite (try_load_model_success _ _ _ _ _ H).
Qed.

Lemma lifespan_startup_run (W : World) (σ0 σa : State) :
  check_folders W σ0 = (inr tt, σa) →
  lifespan_startup W σ0 =
    (inr tt, emit (Log INFO "Application startup complete") (try_load_model W σa).2).
Proof.
  intros H. unfold lifespan_startup. run_monad. rewrite H.
  pose proof (try_load_model_returns W σa) as Hr.
  destruct (try_load_model W σa) as [[e|[]] σ']; simpl in *; [discriminate | done].
Qed.

Lemma lifespan_startup_no_folder (W : World) (σ0 σa : State) (e : PyErr) :
  check_folders W σ0 = (inl e, σa) →
  lifespan_startup W σ0 = (inl e, σa).
Proof. intros H. unfold lifespan_startup. run_monad. by rewrite H. Qed.

Lemma Loaded_insert (d : gmap string pyobj) (m tk : pyobj) (σ : State) :
  Loaded (emit (Log INFO "Application startup complete")
            (set_model_state (<["tokenizer" := tk]> (<["model" := m]> d)) σ)).
Proof.
  unfold Loaded. simpl. split.
  - rewrite lookup_insert_ne by done. rewrite lookup_insert_eq. by eexists.
  - rewrite lookup_insert_eq. by eexists.
Qed.

Lemma handle_Loaded_status (W : World) (r : request) (σ : State) :
  Loaded σ → status (handle W r σ).1 ≠ 503%Z.
Proof.
  intros [[m Hm] [tk Htk]]. destruct r as [n t| |w|w| |]; simpl; try done.
  - destruct (validate Z.leb num_words_Query n) as [n'|],
      (validate Qle_bool temperature_Query t) as [t'|]; simpl; try done.
    unfold run_handler. rewrite (generate_words_loaded W n' t' σ m tk Hm Htk). simpl.
    by destruct (w_sample_n W n' m tk 20 t' (rng σ)) as [[e|ws] g].
  - unfold run_handler. by rewrite add_starred_word_run.
  - unfold run_handler, remove_starred_word. run_monad.
    destruct (list_in (word w) (starred_words σ)); [|done].
    by destruct (list_remove (word w) (starred_words σ)).
  - unfold send_file. simpl. by destruct (w_FileResponse W "static/index.html").
Qed.

Lemma serve_Loaded_status (W : World) (rs : list request) (σ : State) :
  Loaded σ → Forall (λ a, status a ≠ 503%Z) (serve W rs σ).1.
Proof.
  revert σ. induction rs as [|r rs IH]; intros σ HL; simpl; [constructor|].
  pose proof (handle_Loaded_status W r σ HL) as Hr.
  pose proof (handle_model_state W r σ) as Hms.
  destruct (handle W r σ) as [a σ']. simpl in *.
  assert (Loaded σ') as HL' by (unfold Loaded in *; by rewrite Hms).
  specialize (IH σ' HL'). destruct (serve W rs σ') as [answers σ''].
  by constructor.
Qed.

(** Shutdown empties the registry. *)
Lemma lifespan_shutdown_NotLoaded (σ : State) :
  (lifespan_shutdown σ).1 = inr tt ∧ NotLoaded (lifespan_shutdown σ).2.
Proof. split; [done|]. split; apply lookup_empty. Qed.

(** C1. Readiness gating.  While [model_state] lacks the model or the
    tokenizer entry, [generate_words] raises [HTTPException(503, "Model
    not loaded")], whatever its arguments, and the caller is answered
    with status 503; so is every request to the endpoint whose
    parameters pass the validation and reach the handler.  A request
    with a parameter out of range is answered 422 before the handler is
    entered, whether the registry is loaded or not.  A start-up whose
    [load_model] returns leaves both entries in place, and from a state
    with both entries no request, served in any number and order before
    shutdown, is answered 503. *)
Theorem readiness_gating (W : World) :
  (∀ (σ : State) (n : Z) (t : Q),
      model_state σ !! "model" = None ∨ model_state σ !! "tokenizer" = None →
      generate_words W n t σ = (inl (HTTPException 503 "Model not loaded"), σ)
      ∧ run_handler (generate_words W n t) σ
        = (Response 503 (Json (RDict [("detail", "Model not loaded")])), σ))
  ∧ (∀ (σ : State) (num_words : option Z) (temperature : option Q) (n : Z) (t : Q),
      model_state σ !! "model" = None ∨ model_state σ !! "tokenizer" = None →
      validate Z.leb num_words_Query num_words = Some n →
      validate Qle_bool temperature_Query temperature = Some t →
      handle W (GET_generate num_words temperature) σ
      = (Response 503 (Json (RDict [("detail", "Model not loaded")])), σ))
  ∧ (∀ (σ : State) (num_words : option Z) (temperature : option Q),
      validate Z.leb num_words_Query num_words = None
      ∨ validate Qle_bool temperature_Query temperature = None →
      status (handle W (GET_generate num_words temperature) σ).1 = 422%Z
      ∧ (handle W (GET_generate num_words temperature) σ).2 = σ)
  ∧ (∀ (σ0 σa σb : State) (m : Model) (tk : Tokenizer),
      check_folders W σ0 = (inr tt, σa) →
      load_model W σa = (inr (m, tk), σb) →
      ∃ σ1, lifespan_startup W σ0 = (inr tt, σ1) ∧ Loaded σ1)
  ∧ (∀ (σ : State) (rs : list request),
      Loaded σ → Forall (λ a, status a ≠ 503%Z) (serve W rs σ).1).
Proof.
  split_and!.
  - intros σ n t H. pose proof (generate_words_unloaded W n t σ H) as Hg.
    split; [done|]. unfold run_handler. by rewrite Hg.
  - intros σ nw tp n t H Hn Ht. unfold handle, run_handler.
    by rewrite Hn, Ht, (generate_words_unloaded W n t σ H).
  - intros σ nw tp H. unfold handle.
    destruct (validate Z.leb num_words_Query nw) as [n|],
      (validate Qle_bool temperature_Query tp) as [t|]; try done.
    by destruct H.
  - intros σ0 σa σb m tk Hf Hl. eexists. split.
    + by apply lifespan_startup_run.
    + rewrite (try_load_model_success _ _ _ _ _ Hl). simpl. apply Loaded_insert.
  - intros σ rs. apply serve_Loaded_status.
Qed.

(** The gating at work: before start-up a request is turned away, after a
    start-up with every artefact in place ten requests are all served. *)
Lemma readiness_gating_witness :
  (handle Demo.world (GET_generate None None) (initial Demo.world [])).1
    = Response 503 (Json (RDict [("detail", "Model not loaded")]))
  ∧ Forall (λ a, status a ≠ 503%Z)
      (serve Demo.world (replicate 10 (GET_generate None None))
         (Demo.started Demo.world)).1.
Proof.
  destruct (readiness_gating Demo.world) as (Hbefore & _ & _ & Hload & Hafter). split.
  - exact (f_equal fst (proj2 (Hbefore (initial Demo.world []) 10%Z 1%Q
                                 (or_introl eq_refl)))).
  - apply Hafter.
    destruct (Hload (initial Demo.world [])
                (check_folders Demo.world (initial Demo.world [])).2
                (load_model Demo.world
                   (check_folders Demo.world (initial Demo.world [])).2).2
                (mkModel (mkConfig 3 16 32 1) (Some Demo.weights)) Demo.tokenizer
                eq_refl eq_refl) as (σ1 & Hs & HL).
    unfold Demo.started. by rewrite Hs.
Defined.

(** C1 as stated does not hold: before any load, a generation request
    for 0 words is not answered 503 but 422, the validation of the
    parameters coming before the gate. *)
Lemma refused_before_gating :
  NotLoaded (initial Demo.world [])
  ∧ handle Demo.world (GET_generate (Some 0%Z) None) (initial Demo.world [])
    = (Response 422 (ValidationErrors ["num_words"]), initial Demo.world []).
Proof. split; [split|]; reflexivity. Qed.

(** A failing step makes [load_model] raise. *)
Lemma load_failure_raises (W : World) (σ : State) :
  load_failure W (ARTEFACTS σ) → ∃ e σ', load_model W σ = (inl e, σ').
Proof.
  intros Hfail. destruct (load_model W σ) as [[e|[m tk]] σ'] eqn:Hl; [by eauto|].
  exfalso.
  assert (artefacts_load W (ARTEFACTS σ) m tk) as Hok
    by (apply load_model_success; eauto).
  destruct Hok as (config & cm & m0 & sd & H1 & H2 & H3 & H4 & H5 & H6 & H7 & H8 & H9 & H10).
  destruct Hfail as [F|e F|e F|F|e F|e F|c F G|c e F G|F|e F|e F
                    |c c' m' sd' e F G1 G2 G3 G4];
    try congruence.
  rewrite H4 in F. injection F as <-. by rewrite H6, H7 in G.
Qed.

(** Conversely, [load_model] raises only when a step has failed. *)
Lemma load_raises_failure (W : World) (σ σ' : State) (e : PyErr) :
  load_model W σ = (inl e, σ') → load_failure W (ARTEFACTS σ).
Proof.
  unfold_load.
  destruct (w_exists W (ARTEFACTS σ / "tokenizer.json")) as [x1|[|]] eqn:E1; simpl;
    [intros _; by eapply tokenizer_unreachable | | intros _; by apply tokenizer_missing].
  destruct (w_from_file W (ARTEFACTS σ / "tokenizer.json")) as [e1|tk] eqn:E2; simpl;
    [intros _; by eapply tokenizer_unloadable|].
  destruct (w_exists W (ARTEFACTS σ / "config.json")) as [x3|[|]] eqn:E3; simpl;
    [intros _; by eapply config_unreachable | | intros _; by apply config_missing].
  destruct (w_json_load W (ARTEFACTS σ / "config.json")) as [e2|config] eqn:E4; simpl;
    [intros _; by eapply config_malformed|].
  destruct (py_in "model" config) as [e3|[|]] eqn:E5; simpl;
    [intros _; eapply model_key_missing; [done | congruence]
    | | intros _; eapply model_key_missing; [done | congruence]].
  destruct (py_getitem config "model") as [e4|cm] eqn:E6; simpl;
    [intros _; eapply architecture_failure; [done | by rewrite E6]|].
  destruct (w_SlangRNN W cm) as [e5|m0] eqn:E7; simpl;
    [intros _; eapply architecture_failure; [done | by rewrite E6, E7]|].
  destruct (w_exists W (ARTEFACTS σ / "model.pth")) as [x8|[|]] eqn:E8; simpl;
    [intros _; by eapply weights_unreachable | | intros _; by apply weights_missing].
  destruct (w_torch_load W (ARTEFACTS σ / "model.pth")) as [e6|sd] eqn:E9; simpl;
    [intros _; by eapply weights_unreadable|].
  destruct (w_load_state_dict W m0 sd) as [e7|m] eqn:E10; simpl;
    [intros _; by eapply weights_incompatible | intros [=]].
Qed.

Lemma try_load_model_ARTEFACTS (W : World) (σ : State) :
  ARTEFACTS (try_load_model W σ).2 = ARTEFACTS σ.
Proof.
  destruct (load_model_globals W σ) as (HA & _).
  destruct (load_model W σ) as [[e|[m tk]] σ'] eqn:H; simpl in HA.
  - by rewrite (try_load_model_failure _ _ _ _ H).
  - by rewrite (try_load_model_success _ _ _ _ _ H).
Qed.

(** The registry after the [try] statement: untouched, or holding both
    entries of a load in which every step went through. *)
Lemma try_load_model_all_or_nothing (W : World) (σ : State) :
  let σ1 := (try_load_model W σ).2 in
  (load_failure W (ARTEFACTS σ) ∧ model_state σ1 = model_state σ)
  ∨ (∃ m tk, artefacts_load W (ARTEFACTS σ) m tk
       ∧ model_state σ1
         = <["tokenizer" := PyTokenizer tk]> (<["model" := PyModel m]> (model_state σ))).
Proof.
  destruct (load_model_globals W σ) as (_ & Hms & _).
  destruct (load_model W σ) as [[e|[m tk]] σ'] eqn:H; simpl in Hms.
  - left. rewrite (try_load_model_failure _ _ _ _ H). simpl.
    split; [by eapply load_raises_failure | done].
  - right. exists m, tk. rewrite (try_load_model_success _ _ _ _ _ H). simpl.
    split; [apply load_model_success; eauto | by rewrite Hms].
Qed.

(** C2. Atomic load.  When a step of [load_model] fails (tokenizer file
    missing or unloadable, configuration missing, malformed or without
    'model' entry, architecture not constructible, weights missing,
    unreadable or incompatible) [load_model] raises, the [try] statement
    of [lifespan] logs the failure and leaves [model_state] as it was.
    After start-up the registry is either as before or holds both the
    model and the tokenizer of a load whose every step went through;
    started from the empty registry, a failed load leaves neither entry
    and every generation request is refused. *)
Theorem load_atomic (W : World) :
  (∀ σ : State,
      load_failure W (ARTEFACTS σ) →
      ∃ e σ', load_model W σ = (inl e, σ')
        ∧ try_load_model W σ = (inr tt, emit (Log ERROR ("Startup failed: " ++ py_str e)) σ')
        ∧ model_state σ' = model_state σ)
  ∧ (∀ σ0 : State,
      let σ1 := (lifespan_startup W σ0).2 in
      model_state σ1 = model_state σ0
      ∨ (∃ m tk, artefacts_load W (ARTEFACTS σ1) m tk
           ∧ model_state σ1
             = <["tokenizer" := PyTokenizer tk]>
                 (<["model" := PyModel m]> (model_state σ0))))
  ∧ (∀ σ0 : State,
      let σ1 := (lifespan_startup W σ0).2 in
      NotLoaded σ0 →
      load_failure W (ARTEFACTS σ1) →
      NotLoaded σ1
      ∧ ∀ n t, generate_words W n t σ1
               = (inl (HTTPException 503 "Model not loaded"), σ1)).
Proof.
  assert (∀ σ0 : State,
      let σ1 := (lifespan_startup W σ0).2 in
      model_state σ1 = model_state σ0
      ∨ (∃ m tk, artefacts_load W (ARTEFACTS σ1) m tk
           ∧ ¬ load_failure W (ARTEFACTS σ1)
           ∧ model_state σ1
             = <["tokenizer" := PyTokenizer tk]>
                 (<["model" := PyModel m]> (model_state σ0)))) as Hstart.
  { intros σ0 σ1. subst σ1.
    destruct (check_folders_globals W σ0) as (Hms & _).
    destruct (check_folders W σ0) as [[e|[]] σa] eqn:Hf; simpl in Hms.
    { left. by rewrite (lifespan_startup_no_folder _ _ _ _ Hf). }
    rewrite (lifespan_startup_run _ _ _ Hf). simpl.
    rewrite try_load_model_ARTEFACTS, <- Hms.
    destruct (try_load_model_all_or_nothing W σa) as [[_ H]|(m & tk & Hok & H)];
      [by left|right].
    exists m, tk. split_and!; [done | | done].
    intros Hfail. destruct (load_failure_raises W σa Hfail) as (e & σ' & Hl).
    assert (∃ σ'', load_model W σa = (inr (m, tk), σ'')) as [σ'' Hl']
      by by apply load_model_success.
    congruence. }
  split_and!.
  - intros σ Hfail. destruct (load_failure_raises W σ Hfail) as (e & σ' & Hl).
    exists e, σ'. split_and!; [done | by apply try_load_model_failure |].
    destruct (load_model_globals W σ) as (_ & Hms & _). by rewrite Hl in Hms.
  - intros σ0. destruct (Hstart σ0) as [H|(m & tk & Hok & _ & H)]; [by left|right; eauto].
  - intros σ0 σ1 [Hm Ht] Hfail.
    assert (model_state σ1 = model_state σ0) as Hms
      by (destruct (Hstart σ0) as [H|(m & tk & _ & Hno & _)]; [done|by destruct Hno]).
    assert (NotLoaded σ1) as [Hm1 Ht1] by (unfold NotLoaded; by rewrite Hms).
    split; [done|]. intros n t. apply generate_words_unloaded. by left.
Qed.

(** Scenario C of the specification: without the weights file the
    registry stays empty. *)
Lemma load_atomic_witness :
  NotLoaded (Demo.started Demo.no_weights)
  ∧ generate_words Demo.no_weights 5 1 (Demo.started Demo.no_weights)
    = (inl (HTTPException 503 "Model not loaded"), Demo.started Demo.no_weights).
Proof.
  destruct (load_atomic Demo.no_weights) as (_ & _ & H).
  destruct (H (initial Demo.no_weights []) (conj eq_refl eq_refl)
              (weights_missing Demo.no_weights "/app/artefacts" eq_refl)) as [HN Hg].
  split; [exact HN | exact (Hg 5%Z 1%Q)].
Defined.

Lemma calls_app (evs1 evs2 : list event) :
  calls (evs1 ++ evs2) = (calls evs1 ++ calls evs2)%list.
Proof. unfold calls. apply omap_app. Qed.

Lemma calls_map_Call (cs : list call) : calls (map Call cs) = cs.
Proof.
  induction cs as [|c cs IH]; [done|].
  change (calls (map Call (c :: cs))) with (c :: calls (map Call cs)).
  by rewrite IH.
Qed.

(** C4, as the code has it.  [load_model] records its work in one order:
    tokenizer file looked up and loaded, configuration file looked up
    and parsed, architecture constructed from the 'model' entry, weights
    file looked up, read and installed; a failing step ends the sequence
    there.  The load returns exactly when each of these steps goes
    through, the 'model' entry being present, and then all eight calls
    have been made; it raises exactly when one of them fails.  No step
    compares the vocabulary size of the configuration with that of the
    tokenizer. *)
Theorem load_steps_in_order (W : World) (σ : State) :
  (∃ evs cm m0 sd,
      (load_model W σ).2 = add_events evs σ
      ∧ calls evs `prefix_of` load_calls (ARTEFACTS σ) cm m0 sd)
  ∧ (∀ m tk, (∃ σ', load_model W σ = (inr (m, tk), σ'))
             ↔ artefacts_load W (ARTEFACTS σ) m tk)
  ∧ (∀ m tk σ', load_model W σ = (inr (m, tk), σ') →
       ∃ evs cm m0 sd,
         σ' = add_events evs σ ∧ calls evs = load_calls (ARTEFACTS σ) cm m0 sd)
  ∧ ((∃ e σ', load_model W σ = (inl e, σ')) ↔ load_failure W (ARTEFACTS σ)).
Proof.
  split_and!.
  - destruct (load_model_trace W σ) as (evs & H & cm & m0 & sd & Hp). eauto 10.
  - intros m tk. apply load_model_success.
  - intros m tk σ' Hl.
    assert (artefacts_load W (ARTEFACTS σ) m tk) as Hok
      by (apply load_model_success; eauto).
    destruct Hok as (config & cm & m0 & sd & H1 & H2 & H3 & H4 & H5 & H6 & H7 & H8 & H9 & H10).
    rewrite (load_model_complete W σ config cm m0 m sd tk) in Hl by done.
    pose proof (f_equal snd Hl) as Hs. cbn [snd] in Hs. subst σ'.
    eexists _, cm, m0, sd. split; [reflexivity|].
    change (calls ([Log INFO ("Loading model and tokenizer from " ++ ARTEFACTS σ)]
                   ++ (map Call (load_calls (ARTEFACTS σ) cm m0 sd)
                   ++ [Log SUCCESS "Model and tokenizer loaded successfully"]))%list
            = load_calls (ARTEFACTS σ) cm m0 sd).
    rewrite !calls_app, calls_map_Call. apply app_nil_r.
  - split.
    + intros (e & σ' & H). by eapply load_raises_failure.
    + apply load_failure_raises.
Qed.

(** C4 as stated does not hold: a configuration file whose "vocab"
    entry is 50 loads next to a tokenizer file of 3 tokens without any
    failure; the architecture is built for the 50 tokens of the
    configuration, and the pair is published. *)
Lemma vocabulary_not_validated :
  ∃ cm m tk σ',
    w_from_file Demo.mismatch "/app/artefacts/tokenizer.json" = inr tk
    ∧ length (vocab tk) = 3
    ∧ w_json_load Demo.mismatch "/app/artefacts/config.json" = inr Demo.wide_config
    ∧ py_getitem Demo.wide_config "model" = inr cm
    ∧ py_getitem cm "vocab" = inr (JInt 50)
    ∧ ARTEFACTS (initial Demo.mismatch []) = "/app/artefacts"
    ∧ load_model Demo.mismatch (initial Demo.mismatch []) = (inr (m, tk), σ')
    ∧ vocab_size (model_config m) = 50
    ∧ model_state (Demo.started Demo.mismatch) !! "model" = Some (PyModel m)
    ∧ model_state (Demo.started Demo.mismatch) !! "tokenizer" = Some (PyTokenizer tk).
Proof.
  exists (JDict [("vocab", JInt 50); ("embedding_dim", JInt 16);
                 ("hidden_dim", JInt 32); ("num_layers", JInt 1)]),
    (mkModel (mkConfig 50 16 32 1) (Some Demo.weights)), Demo.tokenizer,
    (load_model Demo.mismatch (initial Demo.mismatch [])).2.
  split_and!; reflexivity.
Qed.

(** C8. A failed load does not stop the process.  The [try] statement
    around [load_model] returns whatever [load_model] does; when
    [load_model] raises, [lifespan] logs "Startup failed", completes
    start-up and yields; the only exceptions that leave [lifespan] are
    those of its own folder checks.  The health endpoint answers 200 in
    every state, and the favourites can be listed. *)
Theorem failed_load_keeps_serving (W : World) :
  (∀ σ : State, (try_load_model W σ).1 = inr tt)
  ∧ (∀ (σ0 σa σb : State) (e : PyErr),
      check_folders W σ0 = (inr tt, σa) →
      load_model W σa = (inl e, σb) →
      lifespan_startup W σ0
      = (inr tt,
         add_events [Log ERROR ("Startup failed: " ++ py_str e);
                     Log INFO "Application startup complete"] σb))
  ∧ (∀ (σ0 σ' : State) (e : PyErr),
      lifespan_startup W σ0 = (inl e, σ') → check_folders W σ0 = (inl e, σ'))
  ∧ (∀ σ : State,
      handle W GET_health σ = (Response 200 (Json (RDict [("status", "ok")])), σ)
      ∧ handle W GET_starred σ = (Response 200 (Json (RList (starred_words σ))), σ)).
Proof.
  split_and!.
  - apply try_load_model_returns.
  - intros σ0 σa σb e Hf Hl. rewrite (lifespan_startup_run _ _ _ Hf).
    by rewrite (try_load_model_failure _ _ _ _ Hl).
  - intros σ0 σ' e H. destruct (check_folders W σ0) as [[e'|[]] σa] eqn:Hf.
    + by rewrite (lifespan_startup_no_folder _ _ _ _ Hf) in H.
    + by rewrite (lifespan_startup_run _ _ _ Hf) in H.
  - intros σ. split; reflexivity.
Qed.

(** Without the weights file start-up completes, and the process answers
    health checks. *)
Lemma failed_load_keeps_serving_witness :
  (lifespan_startup Demo.no_weights (initial Demo.no_weights [])).1 = inr tt
  ∧ handle Demo.no_weights GET_health (Demo.started Demo.no_weights)
    = (Response 200 (Json (RDict [("status", "ok")])), Demo.started Demo.no_weights).
Proof.
  destruct (failed_load_keeps_serving Demo.no_weights) as (_ & Hs & _ & Hh).
  split.
  - exact (f_equal fst
             (Hs (initial Demo.no_weights [])
                 (check_folders Demo.no_weights (initial Demo.no_weights [])).2
                 (load_model Demo.no_weights
                    (check_folders Demo.no_weights (initial Demo.no_weights [])).2).2
                 (mkErr FileNotFoundError
                    "Model weights not found at /app/artefacts/model.pth")
                 eq_refl eq_refl)).
  - exact (proj1 (Hh (Demo.started Demo.no_weights))).
Defined.

(** A complete load in the sample deployment. *)
Lemma load_steps_in_order_witness :
  ∃ evs cm m0 sd,
    (load_model Demo.world (initial Demo.world [])).2
      = add_events evs (initial Demo.world [])
    ∧ calls evs = load_calls "/app/artefacts" cm m0 sd.
Proof.
  destruct (load_steps_in_order Demo.world (initial Demo.world [])) as (_ & _ & H & _).
  destruct (H (mkModel (mkConfig 3 16 32 1) (Some Demo.weights)) Demo.tokenizer _ eq_refl)
    as (evs & cm & m0 & sd & H1 & H2).
  exists evs, cm, m0, sd. split; [rewrite <- H1; reflexivity | exact H2].
Defined.

(** ** Requests *)

(** C5, as the code has it.  An exception that [sample_n] raises during
    a request is caught by [generate_words], logged with
    [logger.exception], and raised again as [HTTPException(500)] whose
    detail is [str(e)], the message of the exception; the caller is
    answered with status 500 and that detail. *)
Theorem sampler_failure_reported (W : World) (σ : State) (m tk : pyobj) (n : Z)
    (t : Q) (e : PyErr) (g : Rng) :
  model_state σ !! "model" = Some m →
  model_state σ !! "tokenizer" = Some tk →
  w_sample_n W n m tk 20 t (rng σ) = (inl e, g) →
  let σ' := add_events [Call (sample_n_call n m tk 20 t);
                        Log EXCEPTION ("Error generating words: " ++ py_str e)]
              (set_rng g σ) in
  generate_words W n t σ = (inl (HTTPException 500 (py_str e)), σ')
  ∧ run_handler (generate_words W n t) σ
    = (Response 500 (Json (RDict [("detail", py_str e)])), σ').
Proof.
  intros Hm Htk Hs σ'.
  assert (generate_words W n t σ = (inl (HTTPException 500 (py_str e)), σ')) as Hg.
  { rewrite (generate_words_loaded W n t σ m tk Hm Htk). simpl. by rewrite Hs. }
  split; [done|]. unfold run_handler. by rewrite Hg.
Qed.

Lemma sampler_failure_reported_witness :
  run_handler (generate_words Demo.broken_sampler 10 1)
    (Demo.started Demo.broken_sampler)
  = (Response 500 (Json (RDict [("detail", py_str Demo.breakdown)])),
     add_events
       [Call (sample_n_call 10
                (PyModel (mkModel (mkConfig 3 16 32 1) (Some Demo.weights)))
                (PyTokenizer Demo.tokenizer) 20 1);
        Log EXCEPTION ("Error generating words: " ++ py_str Demo.breakdown)]
       (set_rng [] (Demo.started Demo.broken_sampler))).
Proof.
  exact (proj2 (sampler_failure_reported Demo.broken_sampler
                  (Demo.started Demo.broken_sampler)
                  (PyModel (mkModel (mkConfig 3 16 32 1) (Some Demo.weights)))
                  (PyTokenizer Demo.tokenizer) 10 1 Demo.breakdown []
                  eq_refl eq_refl eq_refl)).
Defined.

(** C5 as stated does not hold: the answer is not generic, the caller
    reads the message of the exception, here with a path of the server
    in it. *)
Lemma sampler_failure_exposes_message :
  (handle Demo.broken_sampler (GET_generate None None)
     (Demo.started Demo.broken_sampler)).1
  = Response 500
      (Json (RDict [("detail",
                     "size mismatch for rnn.weight_ih_l0 at /app/artefacts/model.pth")]))
  ∧ err_msg Demo.breakdown
    = "size mismatch for rnn.weight_ih_l0 at /app/artefacts/model.pth".
Proof. split; reflexivity. Qed.

Lemma generate_words_status (W : World) (n : Z) (t : Q) (σ : State) :
  status (run_handler (generate_words W n t) σ).1 ≠ 422%Z.
Proof.
  unfold run_handler.
  destruct (model_state σ !! "model") as [m|] eqn:Hm;
    [|by rewrite generate_words_unloaded by auto].
  destruct (model_state σ !! "tokenizer") as [tk|] eqn:Ht;
    [|by rewrite generate_words_unloaded by auto].
  rewrite (generate_words_loaded _ _ _ _ _ _ Hm Ht). simpl.
  by destruct (w_sample_n W n m tk 20 t (rng σ)) as [[e|ws] g].
Qed.

Lemma validate_num_words (n : Z) :
  validate Z.leb num_words_Query (Some n) = if decide (1 ≤ n)%Z then Some n else None.
Proof.
  unfold validate, in_bounds. simpl. rewrite andb_true_r.
  destruct (Z.leb_spec 1 n); case_decide; done || lia.
Qed.

Lemma validate_temperature_inside (t : Q) :
  (0 <= t)%Q → (t <= 10)%Q →
  validate Qle_bool temperature_Query (Some t) = Some t.
Proof.
  intros H0 H10. unfold validate, in_bounds. simpl.
  apply Qle_bool_iff in H0, H10. by rewrite H0, H10.
Qed.

Lemma validate_temperature_outside (t : Q) :
  (t < 0)%Q ∨ (10 < t)%Q →
  validate Qle_bool temperature_Query (Some t) = None.
Proof.
  intros Ht. unfold validate, in_bounds. simpl.
  destruct (Qle_bool 0 t) eqn:H0, (Qle_bool t 10) eqn:H10; simpl; try done.
  apply Qle_bool_iff in H0, H10.
  destruct Ht as [Ht|Ht]; by apply Qlt_not_le in Ht.
Qed.

(** C6. Boundary validation.  A request whose count is below 1, or whose
    temperature is below 0 or above 10, is answered 422 and leaves the
    state as it was: the handler is not entered, nothing is logged and
    the sampler is not called.  A request whose count, when given, is at
    least 1 and whose temperature, when given, lies in [0, 10] passes:
    it reaches [generate_words] with these values (the defaults for the
    absent ones) and is not answered 422. *)
Theorem boundary_validation (W : World) (σ : State) (num_words : option Z)
    (temperature : option Q) :
  ((∃ n, num_words = Some n ∧ (n < 1)%Z)
   ∨ (∃ t, temperature = Some t ∧ ((t < 0)%Q ∨ (10 < t)%Q)) →
   ∃ params, handle W (GET_generate num_words temperature) σ
             = (Response 422 (ValidationErrors params), σ))
  ∧ ((∀ n, num_words = Some n → (1 ≤ n)%Z) →
     (∀ t, temperature = Some t → (0 <= t)%Q ∧ (t <= 10)%Q) →
     handle W (GET_generate num_words temperature) σ
     = run_handler (generate_words W (default 10%Z num_words) (default 1%Q temperature)) σ
     ∧ status (handle W (GET_generate num_words temperature) σ).1 ≠ 422%Z).
Proof.
  split.
  - intros [(n & -> & Hn)|(t & -> & Ht)]; unfold handle.
    + rewrite validate_num_words. rewrite decide_False by lia.
      destruct (validate Qle_bool temperature_Query temperature); eauto.
    + rewrite validate_temperature_outside by done.
      destruct (validate Z.leb num_words_Query num_words); eauto.
  - intros Hn Ht.
    assert (validate Z.leb num_words_Query num_words = Some (default 10%Z num_words))
      as Hvn.
    { destruct num_words as [n|]; [|done]. rewrite validate_num_words.
      rewrite decide_True; [done | by apply Hn]. }
    assert (validate Qle_bool temperature_Query temperature
            = Some (default 1%Q temperature)) as Hvt.
    { destruct temperature as [t|]; [|done].
      destruct (Ht t eq_refl). by apply validate_temperature_inside. }
    assert (handle W (GET_generate num_words temperature) σ
            = run_handler (generate_words W (default 10%Z num_words)
                             (default 1%Q temperature)) σ) as Hh
      by (unfold handle; by rewrite Hvn, Hvt).
    split; [done|]. rewrite Hh. apply generate_words_status.
Qed.

(** Zero words are refused before the sampler is reached; five words at
    temperature 1/2 pass. *)
Lemma boundary_validation_witness :
  (∃ params,
      handle Demo.world (GET_generate (Some 0%Z) None) (Demo.started Demo.world)
      = (Response 422 (ValidationErrors params), Demo.started Demo.world))
  ∧ status (handle Demo.world (GET_generate (Some 5%Z) (Some (1 # 2)%Q))
              (Demo.started Demo.world)).1 ≠ 422%Z.
Proof.
  split.
  - apply (proj1 (boundary_validation Demo.world (Demo.started Demo.world)
                    (Some 0%Z) None)).
    left. exists 0%Z. split; [reflexivity | lia].
  - apply (proj2 (boundary_validation Demo.world (Demo.started Demo.world)
                    (Some 5%Z) (Some (1 # 2)%Q))).
    + intros n [= <-]. lia.
    + intros t [= <-]. split; discriminate.
Defined.

Lemma generate_words_events (W : World) (n : Z) (t : Q) (σ : State) :
  events (generate_words W n t σ).2 = events σ
  ∨ ∃ m tk evs,
      model_state σ !! "model" = Some m
      ∧ model_state σ !! "tokenizer" = Some tk
      ∧ events (generate_words W n t σ).2
        = (events σ ++ Call (sample_n_call n m tk 20 t) :: evs)%list
      ∧ ∀ c, Call c ∉ evs.
Proof.
  destruct (model_state σ !! "model") as [m|] eqn:Hm;
    [|left; by rewrite generate_words_unloaded by auto].
  destruct (model_state σ !! "tokenizer") as [tk|] eqn:Ht;
    [|left; by rewrite generate_words_unloaded by auto].
  right. exists m, tk. rewrite (generate_words_loaded _ _ _ _ _ _ Hm Ht). simpl.
  destruct (w_sample_n W n m tk 20 t (rng σ)) as [[e|ws] g]; simpl.
  - eexists [_]. split_and!; [done | done | by rewrite <- app_assoc |].
    intros c [=]%list_elem_of_singleton.
  - exists []. split_and!; [done | done | done |]. intros c Hc. inversion Hc.
Qed.

(** C9. Defaults.  A request without parameters is handled as
    [generate_words(10, 1.0)]; with the registry loaded, the call it
    makes is [sample_n(n=10, ..., max_length=20, temperature=1.0)].
    Whatever the request, every call of the sampler that it adds to the
    history has [max_length=20]. *)
Theorem generate_defaults (W : World) (σ : State) :
  validate Z.leb num_words_Query None = Some 10%Z
  ∧ validate Qle_bool temperature_Query None = Some 1%Q
  ∧ handle W (GET_generate None None) σ = run_handler (generate_words W 10 1) σ
  ∧ (∀ m tk,
      model_state σ !! "model" = Some m →
      model_state σ !! "tokenizer" = Some tk →
      ∃ evs, events (handle W (GET_generate None None) σ).2
             = (events σ ++ Call (sample_n_call 10 m tk 20 1) :: evs)%list
             ∧ ∀ c, Call c ∉ evs)
  ∧ (∀ r n m tk max_length t,
      Call (sample_n_call n m tk max_length t) ∈ events (handle W r σ).2 →
      Call (sample_n_call n m tk max_length t) ∈ events σ ∨ max_length = 20%Z).
Proof.
  split_and!; [done | done | done | |].
  - intros m tk Hm Htk.
    change (handle W (GET_generate None None) σ)
      with (run_handler (generate_words W 10 1) σ).
    rewrite run_handler_snd.
    destruct (generate_words_events W 10 1 σ) as [H|(m' & tk' & evs & Hm' & Htk' & H & Hc)].
    + exfalso. revert H. rewrite (generate_words_loaded _ _ _ _ _ _ Hm Htk). simpl.
      destruct (w_sample_n W 10 m tk 20 1 (rng σ)) as [[e|ws] g]; simpl; intros H.
      * apply (f_equal length) in H. rewrite !length_app in H. simpl in H. lia.
      * apply (f_equal length) in H. rewrite !length_app in H. simpl in H. lia.
    + exists evs. split; [|done]. congruence.
  - intros r n m tk ml t Hin.
    destruct r as [nw tp| |w|w| |]; unfold handle in Hin.
    + destruct (validate Z.leb num_words_Query nw) as [n'|],
        (validate Qle_bool temperature_Query tp) as [t'|]; try (by left).
      rewrite run_handler_snd in Hin.
      destruct (generate_words_events W n' t' σ)
        as [H|(m' & tk' & evs & _ & _ & H & Hc)]; rewrite H in Hin; [by left|].
      apply elem_of_app in Hin as [Hin|Hin]; [by left|].
      apply elem_of_cons in Hin as [[=]|Hin]; [by right|]. by destruct (Hc _ Hin).
    + by left.
    + rewrite run_handler_snd, add_starred_word_run in Hin. by left.
    + left. rewrite run_handler_snd in Hin. revert Hin.
      unfold remove_starred_word. run_monad.
      destruct (list_in (word w) (starred_words σ)); [|done].
      by destruct (list_remove (word w) (starred_words σ)).
    + by left.
    + left. unfold send_file in Hin. simpl in Hin.
      destruct (w_FileResponse W "static/index.html"); simpl in Hin;
        apply elem_of_app in Hin as [Hin|[=]%list_elem_of_singleton];
        by apply elem_of_app in Hin as [Hin|[=]%list_elem_of_singleton].
Qed.

(** In the sample deployment a bare request asks the sampler for ten
    words of at most twenty tokens at temperature one. *)
Lemma generate_defaults_witness :
  ∃ evs,
    events (handle Demo.world (GET_generate None None) (Demo.started Demo.world)).2
    = (events (Demo.started Demo.world)
       ++ Call (sample_n_call 10
                  (PyModel (mkModel (mkConfig 3 16 32 1) (Some Demo.weights)))
                  (PyTokenizer Demo.tokenizer) 20 1) :: evs)%list
    ∧ ∀ c, Call c ∉ evs.
Proof.
  exact (proj1 (proj2 (proj2 (proj2 (generate_defaults Demo.world
                                       (Demo.started Demo.world)))))
           (PyModel (mkModel (mkConfig 3 16 32 1) (Some Demo.weights)))
           (PyTokenizer Demo.tokenizer) eq_refl eq_refl).
Defined.

(** ** Sampling *)

Lemma string_length_app (s1 s2 : string) :
  String.length (s1 ++ s2) = (String.length s1 + String.length s2)%nat.
Proof. induction s1 as [|a s1 IH]; simpl; [done | by rewrite IH]. Qed.

Section SamplingFacts.

Variable initial_state : Model → Sampler.HiddenState.
Variable step : Model → Sampler.HiddenState → nat → list Q * Sampler.HiddenState.
Variable categorical : list Q → Rng → nat * Rng.
Variable split : Rng → Rng * Rng.

(** The loop stops at [max_length] tokens at the latest, whatever the
    network answers. *)
Lemma produce_length (room : nat) (m : Model) (tk : Tokenizer) (t : Q)
    (h : Sampler.HiddenState) (last_id : nat) (produced : list nat) (g : Rng) :
  (length (Sampler.produce step categorical room m tk t h last_id produced g)
   ≤ length produced + room)%nat.
Proof.
  revert h last_id produced g.
  induction room as [|room IH]; intros h last_id produced g; simpl; [lia|].
  destruct (step m h last_id) as [logits h'].
  destruct (Sampler.draw categorical t logits g) as [id g'].
  destruct (Nat.eqb id (end_token tk)); [lia|].
  etrans; [apply IH|]. rewrite length_app. simpl. lia.
Qed.

Lemma sample_ids_length (m : Model) (tk : Tokenizer) (max_length : Z) (t : Q) (g : Rng) :
  (length (Sampler.sample_ids initial_state step categorical m tk max_length t g)
   ≤ Z.to_nat max_length)%nat.
Proof. unfold Sampler.sample_ids. etrans; [apply produce_length|]. simpl. lia. Qed.

Lemma decode_length (tk : Tokenizer) (k : nat) (ids : list nat) (w : string) :
  Forall (λ token, (String.length token ≤ k)%nat) (vocab tk) →
  Sampler.decode tk ids = inr w →
  (String.length w ≤ length ids * k)%nat.
Proof.
  intros Hv. revert w. induction ids as [|id ids IH]; intros w; simpl.
  - intros [= <-]. simpl. lia.
  - destruct (vocab tk !! id) as [token|] eqn:Hid; [|done].
    destruct (Sampler.decode tk ids) as [e|rest]; [done|].
    intros [= <-]. rewrite string_length_app.
    specialize (IH rest eq_refl).
    pose proof (proj1 (Forall_lookup _ _) Hv id token Hid) as Htok. simpl in Htok. lia.
Qed.

Lemma sample_words_spec (n : nat) (m : Model) (tk : Tokenizer) (max_length : Z)
    (t : Q) (g g' : Rng) (ws : list string) :
  Sampler.sample_words initial_state step categorical split n m tk max_length t g
  = (inr ws, g') →
  length ws = n
  ∧ Forall (λ w, ∃ ids, (length ids ≤ Z.to_nat max_length)%nat
                        ∧ Sampler.decode tk ids = inr w) ws.
Proof.
  revert g g' ws. induction n as [|n IH]; intros g g' ws; simpl.
  - intros [= <- <-]. split; [done | constructor].
  - destruct (split g) as [mine others].
    unfold Sampler.sample_word.
    destruct (Sampler.decode tk _) as [e|w] eqn:Hw; [done|].
    destruct (Sampler.sample_words _ _ _ _ n m tk max_length t others)
      as [[e|ws'] g''] eqn:Hws; [done|].
    intros [= <- <-]. destruct (IH _ _ _ Hws) as [Hlen Hall].
    split; [simpl; by rewrite Hlen|].
    constructor; [|done]. eexists. split; [apply sample_ids_length | exact Hw].
Qed.

(** Every word of a call that returns is the text of at most [max_length]
    tokens; there are [n] of them. *)
Lemma sample_n_spec (n : Z) (m tk : pyobj) (max_length : Z) (t : Q) (g g' : Rng)
    (ws : list string) :
  Sampler.sample_n initial_state step categorical split n m tk max_length t g
  = (inr ws, g') →
  length ws = Z.to_nat n
  ∧ ∃ tok, tk = PyTokenizer tok
      ∧ Forall (λ w, ∃ ids, (length ids ≤ Z.to_nat max_length)%nat
                            ∧ Sampler.decode tok ids = inr w) ws.
Proof.
  unfold Sampler.sample_n. destruct m as [mo|?]; [|done]. destruct tk as [?|tok]; [done|].
  destruct (Qle_bool 0 t); [|done].
  intros H. destruct (sample_words_spec _ _ _ _ _ _ _ _ H) as [Hlen Hall]. eauto.
Qed.

(** C3, as the sampler of the specification has it.  With that sampler
    behind the endpoint, a generation for [n >= 1] that succeeds returns
    exactly [n] strings, each of them the text of at most 20 tokens of
    the loaded tokenizer; when no token of the vocabulary is longer than
    [k] characters, each string has at most [20 * k] characters, which
    is 20 for a vocabulary of single characters. *)
Theorem generated_words_bounded (W : World) (σ σ' : State) (n : Z) (t : Q)
    (ws : list string) :
  w_sample_n W = Sampler.sample_n initial_state step categorical split →
  (1 ≤ n)%Z →
  generate_words W n t σ = (inr (RList ws), σ') →
  Z.of_nat (length ws) = n
  ∧ ∃ tok, model_state σ !! "tokenizer" = Some (PyTokenizer tok)
      ∧ Forall (λ w, ∃ ids, (length ids ≤ 20)%nat ∧ Sampler.decode tok ids = inr w) ws
      ∧ (∀ k, Forall (λ token, (String.length token ≤ k)%nat) (vocab tok) →
              Forall (λ w, (String.length w ≤ 20 * k)%nat) ws).
Proof.
  intros HW Hn.
  destruct (model_state σ !! "model") as [m|] eqn:Hm;
    [|by rewrite generate_words_unloaded by auto].
  destruct (model_state σ !! "tokenizer") as [tk|] eqn:Ht;
    [|by rewrite generate_words_unloaded by auto].
  rewrite (generate_words_loaded _ _ _ _ _ _ Hm Ht). simpl.
  destruct (w_sample_n W n m tk 20 t (rng σ)) as [[e|ws'] g] eqn:Hs; [done|].
  intros [= <- _]. rewrite HW in Hs.
  destruct (sample_n_spec _ _ _ _ _ _ _ _ Hs) as (Hlen & tok & -> & Hall).
  split; [lia|]. exists tok. split_and!; [done | done |].
  intros k Hv. eapply Forall_impl; [exact Hall|]. simpl.
  intros w (ids & Hids & Hw). pose proof (decode_length _ _ _ _ Hv Hw). nia.
Qed.

End SamplingFacts.

(** The sample deployment has one-character tokens: three words asked,
    three words of at most 20 characters returned. *)
Lemma generated_words_bounded_witness :
  ∃ ws, (generate_words Demo.world 3 1 (Demo.started Demo.world)).1 = inr (RList ws)
    ∧ Z.of_nat (length ws) = 3%Z
    ∧ Forall (λ w, (String.length w ≤ 20)%nat) ws.
Proof.
  exists (replicate 3 "aaaaaaaaaaaaaaaaaaaa").
  assert (generate_words Demo.world 3 1 (Demo.started Demo.world)
          = (inr (RList (replicate 3 "aaaaaaaaaaaaaaaaaaaa")),
             (generate_words Demo.world 3 1 (Demo.started Demo.world)).2)) as Hrun
    by (vm_compute; reflexivity).
  split; [by rewrite Hrun|].
  destruct (generated_words_bounded Demo.initial_state Demo.step Demo.categorical
              Demo.split Demo.world _ _ 3 1 _ eq_refl ltac:(lia) Hrun)
    as (Hlen & tok & Htok & _ & Hchars).
  split; [exact Hlen|]. apply (Hchars 1).
  assert (model_state (Demo.started Demo.world) !! "tokenizer"
          = Some (PyTokenizer Demo.tokenizer)) as Hdemo by (vm_compute; reflexivity).
  rewrite Hdemo in Htok. injection Htok as <-. repeat constructor.
Defined.

(** C3 as stated does not hold for a vocabulary of subwords: the one
    word returned is the text of 20 tokens and has 40 characters. *)
Lemma subword_word_exceeds_bound :
  ∃ w,
    (handle Demo.subwords (GET_generate (Some 1%Z) (Some 0%Q))
       (Demo.started Demo.subwords)).1
    = Response 200 (Json (RList [w]))
    ∧ String.length w = 40
    ∧ w_sample_n Demo.subwords
      = Sampler.sample_n Demo.initial_state Demo.step Demo.categorical Demo.split.
Proof.
  exists "abababababababababababababababababababab". split_and!; reflexivity.
Qed.

(** Scenarios A and B of the specification, run on its sampler. *)
Example scenario_A :
  (Sampler.sample_n Demo.initial_state (λ _ h _, ([0; 1; 0]%Q, h)) Demo.categorical
     Demo.split 5 (PyModel Demo.architecture) (PyTokenizer Demo.tokenizer) 20 1 []).1
  = inr [""; ""; ""; ""; ""].
Proof. reflexivity. Qed.

Example scenario_B :
  (Demo.sample_n 3 (PyModel Demo.architecture) (PyTokenizer Demo.tokenizer) 5 0 []).1
  = inr ["aaaaa"; "aaaaa"; "aaaaa"].
Proof. reflexivity. Qed.

(** ** Favourites *)

(** C7. The favourites list.  In every state that the service reaches
    from an empty list, the list has no repetition; listing returns it
    as it stands; adding a word returns the list with the word appended
    at the end when no element of the list is equal to it, and the list
    itself otherwise, so that a second addition changes nothing; removing
    a word returns the other words in their order, and the word is gone. *)
Theorem starred_words_ordered_set (W : World) (σ0 : State) (rs : list request)
    (w : Word) :
  starred_words σ0 = [] →
  let σ := (serve W rs σ0).2 in
  let l := starred_words σ in
  NoDup l
  ∧ handle W GET_starred σ = (Response 200 (Json (RList l)), σ)
  ∧ (let l' := if decide (word w ∈ l) then l else (l ++ [word w])%list in
     handle W (POST_starred w) σ
     = (Response 200 (Json (RList l')), set_starred_words l' σ)
     ∧ ∀ x, x ∈ l' ↔ x ∈ l ∨ x = word w)
  ∧ handle W (POST_starred w) (handle W (POST_starred w) σ).2
    = handle W (POST_starred w) σ
  ∧ (let l' := filter (λ y, y ≠ word w) l in
     handle W (POST_unstarred w) σ
     = (Response 200 (Json (RList l')), set_starred_words l' σ)
     ∧ word w ∉ l').
Proof.
  intros H0 σ l.
  assert (NoDup l) as Hnd.
  { apply serve_NoDup. rewrite H0. apply NoDup_nil_2. }
  assert (∀ s : State,
    handle W (POST_starred w) s
    = (Response 200
         (Json (RList (if decide (word w ∈ starred_words s) then starred_words s
                       else (starred_words s ++ [word w])%list))),
       set_starred_words (if decide (word w ∈ starred_words s) then starred_words s
                          else (starred_words s ++ [word w])%list) s)) as Hadd.
  { intros s. unfold handle, run_handler. by rewrite add_starred_word_run. }
  split_and!.
  - done.
  - reflexivity.
  - split; [apply Hadd|]. intros x. case_decide as Hin.
    + split; [by left | intros [?| ->]; done].
    + rewrite elem_of_app, list_elem_of_singleton. done.
  - rewrite (Hadd σ). cbn [snd]. rewrite (Hadd (set_starred_words _ σ)). simpl.
    fold l. set (l' := if decide (word w ∈ l) then l else (l ++ [word w])%list).
    assert (word w ∈ l') as Hin.
    { subst l'. case_decide; [done|].
      apply elem_of_app. right. by apply list_elem_of_singleton. }
    by rewrite (decide_True _ _ Hin).
  - split.
    + unfold handle, run_handler. by rewrite remove_starred_word_run.
    + intros [Hne _]%list_elem_of_filter. done.
Qed.

(** The workflow of the test suite: "nebula" is added twice, stays once,
    and is removed. *)
Lemma starred_words_ordered_set_witness :
  let σ := (serve Demo.world [POST_starred (mkWord "nebula"); POST_starred (mkWord "comet")]
              (initial Demo.world [])).2 in
  handle Demo.world (POST_starred (mkWord "nebula")) σ
  = (Response 200 (Json (RList ["nebula"; "comet"])), σ)
  ∧ (handle Demo.world (POST_unstarred (mkWord "nebula")) σ).1
    = Response 200 (Json (RList ["comet"])).
Proof.
  intros σ.
  destruct (starred_words_ordered_set Demo.world (initial Demo.world [])
              [POST_starred (mkWord "nebula"); POST_starred (mkWord "comet")]
              (mkWord "nebula") eq_refl) as (_ & _ & [Hadd _] & _ & [Hrm _]).
  split.
  - etrans; [exact Hadd | reflexivity].
  - etrans; [exact (f_equal fst Hrm) | reflexivity].
Defined.

(** Strings that differ in case are different favourites. *)
Example starred_words_case_sensitive :
  (serve Demo.world [POST_starred (mkWord "nebula"); POST_starred (mkWord "Nebula");
                     POST_starred (mkWord "nebula"); GET_starred]
     (initial Demo.world [])).1
  = [Response 200 (Json (RList ["nebula"]));
     Response 200 (Json (RList ["nebula"; "Nebula"]));
     Response 200 (Json (RList ["nebula"; "Nebula"]));
     Response 200 (Json (RList ["nebula"; "Nebula"]))].
Proof. reflexivity. Qed.

(** C10. Removing a word that is not in the list answers 200 with the
    list as it is, and changes nothing. *)
Theorem remove_absent_is_noop (W : World) (σ : State) (w : Word) :
  word w ∉ starred_words σ →
  handle W (POST_unstarred w) σ = (Response 200 (Json (RList (starred_words σ))), σ).
Proof.
  intros Hin. unfold handle, run_handler.
  by rewrite remove_starred_word_absent.
Qed.

Lemma remove_absent_is_noop_witness :
  handle Demo.world (POST_unstarred (mkWord "pulsar"))
    (Demo.running Demo.world [POST_starred (mkWord "nebula")])
  = (Response 200 (Json (RList ["nebula"])),
     Demo.running Demo.world [POST_starred (mkWord "nebula")]).
Proof.
  apply (remove_absent_is_noop Demo.world
           (Demo.running Demo.world [POST_starred (mkWord "nebula")])
           (mkWord "pulsar")).
  apply list_in_false. reflexivity.
Defined.

(** * Further properties of the code *)

(** An event found in a history that has grown by records of other kinds
    was there before. *)
Ltac old_event H :=
  repeat (apply elem_of_app in H as [H|H];
          [|by apply list_elem_of_singleton in H]);
  try exact H.

(** ** The exceptions of [load_model] *)

(** X4. [load_model] raises exactly the exception of its first failing
    step: a missing file is a [FileNotFoundError] naming its path, a
    failure of the tokenizer, of the architecture or of the weights a
    [RuntimeError] carrying the message of the original exception,
    malformed JSON or a missing 'model' key a [ValueError]; any other
    error of reading the configuration, and the [TypeError] of looking
    for a key in a scalar, leave [load_model] as they are. *)
Theorem load_model_raises_first_failure (W : World) (σ : State) (e : PyErr) :
  (∃ σ', load_model W σ = (inl e, σ')) ↔ load_raises W (ARTEFACTS σ) e.
Proof.
  split.
  - intros [σ' H]. revert H. unfold_load.
    destruct (w_exists W (ARTEFACTS σ / "tokenizer.json")) as [x1|[|]] eqn:E1; simpl;
      [intros [= <- _]; by apply raises_tokenizer_unreachable
      | | intros [= <- _]; by apply raises_tokenizer_missing].
    destruct (w_from_file W (ARTEFACTS σ / "tokenizer.json")) as [e1|tk] eqn:E2; simpl;
      [intros [= <- _]; by apply raises_tokenizer_unloadable|].
    intros H. eapply raises_after_tokenizer; [done | done |]. revert H.
    destruct (w_exists W (ARTEFACTS σ / "config.json")) as [x3|[|]] eqn:E3; simpl;
      [intros [= <- _]; by apply raises_config_unreachable
      | | intros [= <- _]; by apply raises_config_missing].
    destruct (w_json_load W (ARTEFACTS σ / "config.json")) as [e2|config] eqn:E4; simpl.
    { destruct (err_class e2) eqn:Hc; simpl; intros [= <- _];
        solve [ by apply raises_invalid_json
              | apply raises_unreadable_config; [done | done | by rewrite Hc] ]. }
    intros H. eapply raises_after_config; [done | done |]. revert H.
    destruct (py_in "model" config) as [e3|[|]] eqn:E5; simpl;
      [intros [= <- _]; by apply raises_not_a_container
      | | intros [= <- _]; by apply raises_no_model_key].
    destruct (py_getitem config "model") as [e4|cm] eqn:E6; simpl;
      [intros [= <- _]; by apply raises_no_model_entry|].
    destruct (w_SlangRNN W cm) as [e5|m0] eqn:E7; simpl;
      [intros [= <- _]; by eapply raises_architecture|].
    destruct (w_exists W (ARTEFACTS σ / "model.pth")) as [x8|[|]] eqn:E8; simpl;
      [intros [= <- _]; by eapply raises_weights_unreachable
      | | intros [= <- _]; by eapply raises_weights_missing].
    destruct (w_torch_load W (ARTEFACTS σ / "model.pth")) as [e6|sd] eqn:E9; simpl;
      [intros [= <- _]; by eapply raises_weights_unreadable|].
    destruct (w_load_state_dict W m0 sd) as [e7|m] eqn:E10; simpl;
      [intros [= <- _]; by eapply raises_weights_incompatible | intros [=]].
  - intros H. unfold_load.
    destruct H as [H1|e1 H1|e1 H1 H2|tk e' H1 H2 H]; rewrite H1; simpl;
      [by eexists | by eexists | rewrite H2; simpl; by eexists |].
    rewrite H2. simpl.
    destruct H as [H3|e2 H3|e2 H3 H4 Hc|e2 H3 H4 Hc|config e'' H3 H4 H]; rewrite H3; simpl;
      [by eexists | by eexists | rewrite H4; simpl; rewrite Hc; by eexists | |].
    { rewrite H4. simpl. destruct e2 as [c msg]. simpl in *.
      destruct c; try done; by eexists. }
    rewrite H4. simpl.
    destruct H as [config e3 H5|config H5|config e4 H5 H6|config cm e5 H5 H6 H7
                   |config cm m0 H5 H6 H7 H8|config cm m0 e6 H5 H6 H7 H8
                   |config cm m0 e6 H5 H6 H7 H8 H9
                   |config cm m0 sd e7 H5 H6 H7 H8 H9 H10];
      rewrite H5; simpl; try (by eexists);
      rewrite H6; simpl; try (by eexists);
      rewrite H7; simpl; try (by eexists);
      rewrite H8; simpl; try (by eexists);
      rewrite H9; simpl; try (by eexists).
    rewrite H10. simpl. by eexists.
Qed.

(** Without the weights file the exception names the path that was
    looked up. *)
Lemma load_model_raises_first_failure_witness :
  (∃ σ', load_model Demo.no_weights (initial Demo.no_weights [])
         = (inl (mkErr FileNotFoundError
                   "Model weights not found at /app/artefacts/model.pth"), σ')).
Proof.
  apply (proj2 (load_model_raises_first_failure Demo.no_weights
                  (initial Demo.no_weights [])
                  (mkErr FileNotFoundError
                     "Model weights not found at /app/artefacts/model.pth"))).
  eapply raises_after_tokenizer; [reflexivity | reflexivity |].
  eapply raises_after_config; [reflexivity | reflexivity |].
  eapply (raises_weights_missing Demo.no_weights "/app/artefacts" Demo.config);
    reflexivity.
Defined.

Lemma config_shape (config cm : json) :
  py_in "model" config = inr true →
  py_getitem config "model" = inr cm →
  ∃ kvs, config = JDict kvs ∧ assoc "model" kvs = Some cm.
Proof.
  destruct config as [| | | | |l|kvs]; simpl; try done.
  intros _. destruct (assoc "model" kvs) as [v|] eqn:Hv; [|done].
  intros [= <-]. eauto.
Qed.

(** X5. A load that returns has read a configuration that is a JSON
    object with a 'model' entry, and has constructed the architecture
    from the value of that entry.  A configuration of any other shape
    makes [load_model] raise: [TypeError] for null, a boolean or a
    number, [RuntimeError] for a list or a string that contains "model"
    (the key test passes, the subscript fails while the architecture is
    constructed), [ValueError] for a list or a string that does not.  It
    raises before anything else is done: the calls made are the four of
    the tokenizer and the configuration, the architecture is not
    constructed and the weights file is neither looked up nor read. *)
Theorem config_must_be_an_object (W : World) (σ : State) :
  (∀ m tk σ', load_model W σ = (inr (m, tk), σ') →
     ∃ kvs cm,
       w_json_load W (ARTEFACTS σ / "config.json") = inr (JDict kvs)
       ∧ assoc "model" kvs = Some cm
       ∧ Call (SlangRNN_call cm) ∈ events σ')
  ∧ (∀ tk config,
       w_exists W (ARTEFACTS σ / "tokenizer.json") = inr true →
       w_from_file W (ARTEFACTS σ / "tokenizer.json") = inr tk →
       w_exists W (ARTEFACTS σ / "config.json") = inr true →
       w_json_load W (ARTEFACTS σ / "config.json") = inr config →
       (∀ kvs, config ≠ JDict kvs) →
       ∃ e σ', load_model W σ = (inl e, σ')
         ∧ err_class e
           = match py_in "model" config with
             | inl _ => TypeError
             | inr true => RuntimeError
             | inr false => ValueError
             end
         ∧ ∃ evs, σ' = add_events evs σ
             ∧ calls evs
               = [ path_exists_call (ARTEFACTS σ / "tokenizer.json");
                   Tokenizer_from_file_call (ARTEFACTS σ / "tokenizer.json");
                   path_exists_call (ARTEFACTS σ / "config.json");
                   json_load_call (ARTEFACTS σ / "config.json") ]).
Proof.
  split.
  - intros m tk σ' Hl.
    assert (artefacts_load W (ARTEFACTS σ) m tk) as Hok
      by (apply load_model_success; eauto).
    destruct Hok as (config & cm & m0 & sd & H1 & H2 & H3 & H4 & H5 & H6 & H7 & H8 & H9 & H10).
    destruct (config_shape config cm H5 H6) as (kvs & -> & Hcm).
    exists kvs, cm. split_and!; [done | done |].
    rewrite (load_model_complete W σ (JDict kvs) cm m0 m sd tk) in Hl by done.
    pose proof (f_equal snd Hl) as Hs. cbn [snd] in Hs. subst σ'.
    destruct (add_events_globals
                (Log INFO ("Loading model and tokenizer from " ++ ARTEFACTS σ)
                 :: map Call (load_calls (ARTEFACTS σ) cm m0 sd)
                 ++ [Log SUCCESS "Model and tokenizer loaded successfully"])%list σ)
      as (_ & _ & _ & _ & ->).
    apply elem_of_app. right. simpl.
    do 5 apply list_elem_of_further. apply list_elem_of_here.
  - intros tk config H1 H2 H3 H4 Hshape. unfold_load.
    rewrite H1; simpl. rewrite H2; simpl. rewrite H3; simpl. rewrite H4; simpl.
    assert (
      ∃ evs,
        emit (Call (json_load_call (ARTEFACTS σ / "config.json")))
          (emit (Call (path_exists_call (ARTEFACTS σ / "config.json")))
             (emit (Call (Tokenizer_from_file_call (ARTEFACTS σ / "tokenizer.json")))
                (emit (Call (path_exists_call (ARTEFACTS σ / "tokenizer.json")))
                   (emit (Log INFO ("Loading model and tokenizer from " ++ ARTEFACTS σ))
                      σ))))
        = add_events evs σ
        ∧ calls evs
          = [ path_exists_call (ARTEFACTS σ / "tokenizer.json");
              Tokenizer_from_file_call (ARTEFACTS σ / "tokenizer.json");
              path_exists_call (ARTEFACTS σ / "config.json");
              json_load_call (ARTEFACTS σ / "config.json") ]) as Hevs.
    { exists [Log INFO ("Loading model and tokenizer from " ++ ARTEFACTS σ);
              Call (path_exists_call (ARTEFACTS σ / "tokenizer.json"));
              Call (Tokenizer_from_file_call (ARTEFACTS σ / "tokenizer.json"));
              Call (path_exists_call (ARTEFACTS σ / "config.json"));
              Call (json_load_call (ARTEFACTS σ / "config.json"))].
      split; reflexivity. }
    destruct config as [|b|z|q|s|l|kvs]; simpl;
      try (eexists _, _; split_and!; [reflexivity | reflexivity |]; exact Hevs).
    + destruct (bool_decide (is_Some (String.index 0 "model" s))); simpl;
        eexists _, _; (split_and!; [reflexivity | reflexivity |]); exact Hevs.
    + destruct (existsb (is_JStr "model") l); simpl;
        eexists _, _; (split_and!; [reflexivity | reflexivity |]); exact Hevs.
    + by destruct (Hshape kvs).
Qed.

(** A configuration file that holds a list, here ["model"], is refused
    while the architecture is constructed. *)
Lemma config_must_be_an_object_witness :
  ∃ e σ',
    load_model (mkWorld (λ p, "/app" / p) (λ _, inr true) (λ _, inr Demo.tokenizer)
                  (λ _, inr (JList [JStr "model"])) (λ _, inr Demo.architecture)
                  (λ _, inr Demo.weights) Demo.install Demo.sample_n
                  (λ _, inr Demo.index_html))
      (initial Demo.world []) = (inl e, σ')
    ∧ err_class e = RuntimeError.
Proof.
  destruct (proj2 (config_must_be_an_object
              (mkWorld (λ p, "/app" / p) (λ _, inr true) (λ _, inr Demo.tokenizer)
                 (λ _, inr (JList [JStr "model"])) (λ _, inr Demo.architecture)
                 (λ _, inr Demo.weights) Demo.install Demo.sample_n
                 (λ _, inr Demo.index_html))
              (initial Demo.world []))
              Demo.tokenizer (JList [JStr "model"]) eq_refl eq_refl eq_refl eq_refl
              ltac:(discriminate)) as (e & σ' & Hl & Hc & _).
  exists e, σ'. split; [exact Hl | exact Hc].
Defined.

(** ** The lifespan *)

Lemma check_folders_cases (W : World) (σ : State) :
  let frontend := FRONTEND_FOLDER W in
  let parent := w_resolve W "../artefacts" in
  match check_folders W σ with
  | (inl e, σ') =>
      ((w_exists W frontend = inr false
        ∧ e = mkErr FileNotFoundError ("Cant find the frontend folder at " ++ frontend))
       ∨ w_exists W frontend = inl e
       ∨ (w_exists W frontend = inr true ∧ w_exists W (ARTEFACTS σ) = inl e)
       ∨ (w_exists W frontend = inr true ∧ w_exists W (ARTEFACTS σ) = inr false
          ∧ w_exists W parent = inl e)
       ∨ (w_exists W frontend = inr true ∧ w_exists W (ARTEFACTS σ) = inr false
          ∧ w_exists W parent = inr false
          ∧ e = mkErr FileNotFoundError ("Cant find the artefacts folder at " ++ parent)))
      ∧ ∀ c, Call c ∈ events σ' → Call c ∈ events σ ∨ ∃ p, c = path_exists_call p
  | (inr _, σ') =>
      w_exists W frontend = inr true
      ∧ w_exists W (ARTEFACTS σ') = inr true
      ∧ ((w_exists W (ARTEFACTS σ) = inr true ∧ ARTEFACTS σ' = ARTEFACTS σ)
         ∨ (w_exists W (ARTEFACTS σ) = inr false ∧ ARTEFACTS σ' = parent))
  end.
Proof.
  assert (∀ (evs : list event) (c : call),
    Forall (λ ev, ∀ c', ev = Call c' → ∃ p, c' = path_exists_call p) evs →
    Call c ∈ (events σ ++ evs)%list →
    Call c ∈ events σ ∨ ∃ p, c = path_exists_call p) as Hold.
  { intros evs c Hall [Hin|Hin]%elem_of_app; [by left|right].
    by apply (proj1 (Forall_forall _ _) Hall _ Hin). }
  assert (∀ p, ∀ c', Call (path_exists_call p) = Call c' → ∃ p', c' = path_exists_call p')
    as Hcall by (intros p c' [= <-]; by eexists).
  assert (∀ lvl msg, ∀ c', Log lvl msg = Call c' → ∃ p', c' = path_exists_call p')
    as Hlog by (intros lvl msg c' [=]).
  unfold check_folders, path_exists, outside. run_monad.
  destruct (w_exists W (FRONTEND_FOLDER W)) as [e1|[|]] eqn:E1; simpl.
  - split; [auto|]. intros c Hin. eapply Hold; [|exact Hin]. repeat constructor. apply Hcall.
  - destruct (w_exists W (ARTEFACTS σ)) as [e2|[|]] eqn:E2; simpl.
    + split; [auto 6|]. intros c Hin. rewrite <- !app_assoc in Hin.
      eapply Hold; [|exact Hin]. repeat constructor; apply Hcall.
    + split_and!; [done | done | by left].
    + destruct (w_exists W (w_resolve W "../artefacts")) as [e3|[|]] eqn:E3; simpl.
      * split; [auto 10|]. intros c Hin. rewrite <- !app_assoc in Hin.
        eapply Hold; [|exact Hin]. repeat constructor; apply Hcall || apply Hlog.
      * split_and!; [done | done | by right].
      * split; [do 4 right; by split_and!|]. intros c Hin. rewrite <- !app_assoc in Hin.
        eapply Hold; [|exact Hin]. repeat constructor; apply Hcall || apply Hlog.
  - split; [by left|]. intros c Hin. eapply Hold; [|exact Hin]. repeat constructor. apply Hcall.
Qed.



(** X2. [lifespan] never touches the favourites: they are the same
    after start-up, whether the load succeeded or not, and after
    shutdown; shutdown leaves [ARTEFACTS] as it is and the registry
    empty, so that every call of [generate_words] after it is refused
    with 503. *)
Theorem lifespan_keeps_favourites (W : World) (σ : State) :
  starred_words (lifespan_startup W σ).2 = starred_words σ
  ∧ lifespan_shutdown σ
    = (inr tt,
       add_events [Log INFO "Application shutdown...";
                   Log SUCCESS "Application shutdown complete"]
         (set_model_state ∅ σ))
  ∧ starred_words (lifespan_shutdown σ).2 = starred_words σ
  ∧ ARTEFACTS (lifespan_shutdown σ).2 = ARTEFACTS σ
  ∧ ∀ n t, run_handler (generate_words W n t) (lifespan_shutdown σ).2
           = (Response 503 (Json (RDict [("detail", "Model not loaded")])),
              (lifespan_shutdown σ).2).
Proof.
  split_and!; [| reflexivity | reflexivity | reflexivity |].
  - destruct (check_folders_globals W σ) as (_ & Hsw & _).
    destruct (check_folders W σ) as [[e|[]] σa] eqn:Hf; simpl in Hsw.
    + by rewrite (lifespan_startup_no_folder _ _ _ _ Hf).
    + rewrite (lifespan_startup_run _ _ _ Hf). simpl. rewrite <- Hsw.
      destruct (load_model_globals W σa) as (_ & _ & Hl & _).
      destruct (load_model W σa) as [[e|[m tk]] σb] eqn:Hload; simpl in Hl.
      * by rewrite (try_load_model_failure _ _ _ _ Hload).
      * by rewrite (try_load_model_success _ _ _ _ _ Hload).
  - intros n t. unfold run_handler.
    by rewrite generate_words_unloaded by (left; apply lookup_empty).
Qed.

(** X3. Restart.  Where the folders exist and every step of the load
    goes through, a start-up that follows a shutdown returns and leaves
    in the registry exactly the model and the tokenizer it has loaded,
    whatever the registry held before the shutdown. *)
Theorem restart_reloads (W : World) (σ : State) (m : Model) (tk : Tokenizer) :
  w_exists W (FRONTEND_FOLDER W) = inr true →
  w_exists W (ARTEFACTS σ) = inr true →
  artefacts_load W (ARTEFACTS σ) m tk →
  ∃ σ', lifespan_startup W (lifespan_shutdown σ).2 = (inr tt, σ')
    ∧ model_state σ' = {[ "model" := PyModel m; "tokenizer" := PyTokenizer tk ]}
    ∧ starred_words σ' = starred_words σ.
Proof.
  intros Hfe Hae Hok.
  set (σ0 := (lifespan_shutdown σ).2).
  assert (ARTEFACTS σ0 = ARTEFACTS σ) as HA by reflexivity.
  pose proof (check_folders_cases W σ0) as Hc.
  destruct (check_folders_globals W σ0) as (Hms & Hsw & _).
  destruct (check_folders W σ0) as [[e|[]] σa] eqn:Hf; simpl in Hc, Hms, Hsw.
  { destruct Hc as ([[? _]|[?|[[_ ?]|[(_ & ? & _)|(_ & ? & _)]]]] & _); congruence. }
  destruct Hc as (_ & _ & [[_ HAa]|[? _]]); [|congruence].
  assert (∃ σb, load_model W σa = (inr (m, tk), σb)) as [σb Hl]
    by (apply load_model_success; by rewrite HAa).
  eexists. split; [by apply lifespan_startup_run|].
  rewrite (try_load_model_success _ _ _ _ _ Hl). simpl.
  destruct (load_model_globals W σa) as (_ & Hms' & Hsw' & _).
  rewrite Hl in Hms', Hsw'. simpl in Hms', Hsw'.
  rewrite Hms', Hms, Hsw', Hsw. split; [|done].
  change (model_state σ0) with (∅ : gmap string pyobj).
  apply map_eq. intros k.
  destruct (decide (k = "tokenizer")) as [->|Hk1]; [by simplify_map_eq|].
  destruct (decide (k = "model")) as [->|Hk2]; by simplify_map_eq.
Qed.

Lemma restart_reloads_witness :
  ∃ σ', lifespan_startup Demo.world
          (lifespan_shutdown (Demo.running Demo.world [POST_starred (mkWord "nebula")])).2
        = (inr tt, σ')
    ∧ model_state σ'
      = {[ "model" := PyModel (mkModel (mkConfig 3 16 32 1) (Some Demo.weights));
           "tokenizer" := PyTokenizer Demo.tokenizer ]}
    ∧ starred_words σ' = ["nebula"].
Proof.
  apply (restart_reloads Demo.world
           (Demo.running Demo.world [POST_starred (mkWord "nebula")])
           (mkModel (mkConfig 3 16 32 1) (Some Demo.weights)) Demo.tokenizer
           eq_refl eq_refl).
  exists Demo.config,
    (JDict [("vocab", JInt 3); ("embedding_dim", JInt 16);
            ("hidden_dim", JInt 32); ("num_layers", JInt 1)]),
    Demo.architecture, Demo.weights.
  split_and!; reflexivity.
Defined.

(** ** Requests *)






Lemma accepted_generate (num_words : option Z) (temperature : option Q) :
  accepted (GET_generate num_words temperature) = true ↔
  ∃ n t, validate Z.leb num_words_Query num_words = Some n
         ∧ validate Qle_bool temperature_Query temperature = Some t.
Proof.
  unfold accepted.
  destruct (validate Z.leb num_words_Query num_words) as [n|],
    (validate Qle_bool temperature_Query temperature) as [t|];
    split; try done; try (intros (? & ? & ? & ?); done). eauto.
Qed.

(** X6. [new_words], called on its own as the test suite does: with an
    entry missing it raises [RuntimeError("Model or Tokenizer not
    initialized")] and leaves everything as it was, the sampler is not
    called; with both entries it calls the sampler once with
    [max_length=20] and hands on what the sampler returns or raises,
    untouched and without a log record.  With both entries
    [generate_words] is [new_words] followed by the translation of an
    exception into a logged 500. *)
Theorem new_words_passes_through (W : World) (n : Z) (t : Q) (σ : State) :
  (model_state σ !! "model" = None ∨ model_state σ !! "tokenizer" = None →
   new_words W n t σ
   = (inl (mkErr RuntimeError "Model or Tokenizer not initialized"), σ))
  ∧ (∀ m tk,
      model_state σ !! "model" = Some m →
      model_state σ !! "tokenizer" = Some tk →
      new_words W n t σ
      = ((w_sample_n W n m tk 20 t (rng σ)).1,
         set_rng (w_sample_n W n m tk 20 t (rng σ)).2
           (emit (Call (sample_n_call n m tk 20 t)) σ))
      ∧ generate_words W n t σ
        = match new_words W n t σ with
          | (inr ws, σ') => (inr (RList ws), σ')
          | (inl e, σ') =>
              (inl (HTTPException 500 (py_str e)),
               emit (Log EXCEPTION ("Error generating words: " ++ py_str e)) σ')
          end).
Proof.
  split.
  - intros H. unfold new_words. run_monad.
    destruct H as [->| ->]; [done|]. by destruct (model_state σ !! "model").
  - intros m tk Hm Htk.
    assert (new_words W n t σ
            = ((w_sample_n W n m tk 20 t (rng σ)).1,
               set_rng (w_sample_n W n m tk 20 t (rng σ)).2
                 (emit (Call (sample_n_call n m tk 20 t)) σ))) as Hnew.
    { unfold new_words, sample_n. run_monad. rewrite Hm, Htk. simpl.
      by destruct (w_sample_n W n m tk 20 t (rng σ)) as [[e|ws] g]. }
    split; [done|]. rewrite Hnew, (generate_words_loaded W n t σ m tk Hm Htk). simpl.
    by destruct (w_sample_n W n m tk 20 t (rng σ)) as [[e|ws] g].
Qed.

Lemma new_words_passes_through_witness :
  new_words Demo.world 2 1 (initial Demo.world [])
  = (inl (mkErr RuntimeError "Model or Tokenizer not initialized"),
     initial Demo.world [])
  ∧ (new_words Demo.world 2 1 (Demo.started Demo.world)).1
    = inr ["aaaaaaaaaaaaaaaaaaaa"; "aaaaaaaaaaaaaaaaaaaa"].
Proof.
  destruct (new_words_passes_through Demo.world 2 1 (initial Demo.world []))
    as [Hmissing _].
  destruct (new_words_passes_through Demo.world 2 1 (Demo.started Demo.world))
    as [_ Hboth].
  split.
  - exact (Hmissing (or_introl eq_refl)).
  - destruct (Hboth (PyModel (mkModel (mkConfig 3 16 32 1) (Some Demo.weights)))
                (PyTokenizer Demo.tokenizer) eq_refl eq_refl) as [Hnew _].
    rewrite Hnew. reflexivity.
Defined.


(** X8. Requests cannot repair a failed load.  From a state whose
    registry lacks an entry, however many requests are served, the
    registry stays as it is and every generate request whose parameters
    pass the validation is answered 503 "Model not loaded"; there is one
    answer per request. *)
Theorem unloaded_service_stays_unloaded (W : World) (rs : list request) (σ : State) :
  model_state σ !! "model" = None ∨ model_state σ !! "tokenizer" = None →
  model_state (serve W rs σ).2 = model_state σ
  ∧ Forall2 (λ r a, accepted r = true →
                    a = Response 503 (Json (RDict [("detail", "Model not loaded")])))
      rs (serve W rs σ).1.
Proof.
  intros Hun. split; [apply serve_model_state|].
  revert σ Hun. induction rs as [|r rs IH]; intros σ Hun; simpl; [constructor|].
  pose proof (handle_model_state W r σ) as Hms.
  destruct (handle W r σ) as [a σ'] eqn:Hr. simpl in Hms.
  assert (model_state σ' !! "model" = None ∨ model_state σ' !! "tokenizer" = None)
    as Hun' by by rewrite Hms.
  specialize (IH σ' Hun'). destruct (serve W rs σ') as [answers σ''].
  constructor; [|done].
  destruct r as [nw tp| |w|w| |]; try done.
  intros (n & t & Hn & Ht)%accepted_generate.
  revert Hr. unfold handle, run_handler. rewrite Hn, Ht.
  rewrite (generate_words_unloaded W n t σ Hun). by intros [= <- _].
Qed.

(** After a start-up without the weights file, starring a word does not
    help: the generate requests before and after it are refused. *)
Lemma unloaded_service_stays_unloaded_witness :
  Forall2 (λ r a, accepted r = true →
                  a = Response 503 (Json (RDict [("detail", "Model not loaded")])))
    [GET_generate None None; POST_starred (mkWord "nebula"); GET_generate (Some 3%Z) None]
    (serve Demo.no_weights
       [GET_generate None None; POST_starred (mkWord "nebula"); GET_generate (Some 3%Z) None]
       (Demo.started Demo.no_weights)).1.
Proof.
  apply (unloaded_service_stays_unloaded Demo.no_weights
           [GET_generate None None; POST_starred (mkWord "nebula");
            GET_generate (Some 3%Z) None]
           (Demo.started Demo.no_weights)).
  left. reflexivity.
Defined.





(** ** Favourites *)

Lemma handle_favourites (W : World) (r : request) (σ : State) :
  NoDup (starred_words σ) →
  favourites (handle W r σ).2 = on_favourites r (favourites σ).
Proof.
  intros Hnd. unfold favourites. destruct r as [nw tp| |w|w| |]; simpl on_favourites.
  - pose proof (generate_words_starred_words W) as Hg. unfold handle.
    destruct (validate Z.leb num_words_Query nw) as [n|],
      (validate Qle_bool temperature_Query tp) as [t|]; try done.
    by rewrite run_handler_snd, Hg.
  - done.
  - unfold handle. rewrite run_handler_snd, add_starred_word_run. simpl.
    apply set_eq. intros x. case_decide as Hin.
    + rewrite elem_of_union, elem_of_singleton, !elem_of_list_to_set.
      split; [by left | intros [?| ->]; done].
    + rewrite elem_of_union, elem_of_singleton, !elem_of_list_to_set.
      by rewrite elem_of_app, list_elem_of_singleton.
  - unfold handle. rewrite run_handler_snd, remove_starred_word_run by done. simpl.
    apply set_eq. intros x.
    rewrite elem_of_difference, elem_of_singleton, !elem_of_list_to_set.
    rewrite list_elem_of_filter. tauto.
  - done.
  - unfold handle, send_file. simpl.
    by destruct (w_FileResponse W "static/index.html").
Qed.

(** X10. The favourites list is a set kept in a list.  Started empty, the
    set of the favourites after any sequence of requests is what the
    requests say when read as set operations, [POST /starred] as the
    insertion of its word, [POST /unstarred] as its deletion and every
    other request as nothing; the list has as many entries as that set
    has elements. *)
Theorem favourites_as_set (W : World) (σ0 : State) (rs : list request) :
  starred_words σ0 = [] →
  favourites (serve W rs σ0).2 = foldl (λ S r, on_favourites r S) ∅ rs
  ∧ length (starred_words (serve W rs σ0).2) = size (favourites (serve W rs σ0).2).
Proof.
  intros H0.
  assert (∀ σ, NoDup (starred_words σ) →
               favourites (serve W rs σ).2
               = foldl (λ S r, on_favourites r S) (favourites σ) rs) as Hgen.
  { induction rs as [|r rs IH]; intros σ Hnd; simpl; [done|].
    pose proof (handle_favourites W r σ Hnd) as Hr.
    pose proof (handle_NoDup W r σ Hnd) as Hnd'.
    destruct (handle W r σ) as [a σ']. simpl in Hr, Hnd'.
    specialize (IH σ' Hnd'). destruct (serve W rs σ') as [answers σ''].
    simpl in *. by rewrite IH, Hr. }
  assert (NoDup (starred_words σ0)) as Hnd0 by (rewrite H0; apply NoDup_nil_2).
  split.
  - rewrite (Hgen σ0 Hnd0). unfold favourites at 1. by rewrite H0.
  - unfold favourites. symmetry. apply size_list_to_set. by apply serve_NoDup.
Qed.

Lemma favourites_as_set_witness :
  favourites (serve Demo.world
                [POST_starred (mkWord "nebula"); POST_starred (mkWord "comet");
                 POST_unstarred (mkWord "nebula"); POST_starred (mkWord "comet")]
                (initial Demo.world [])).2
  = foldl (λ S r, on_favourites r S) ∅
      [POST_starred (mkWord "nebula"); POST_starred (mkWord "comet");
       POST_unstarred (mkWord "nebula"); POST_starred (mkWord "comet")].
Proof.
  exact (proj1 (favourites_as_set Demo.world (initial Demo.world [])
                  [POST_starred (mkWord "nebula"); POST_starred (mkWord "comet");
                   POST_unstarred (mkWord "nebula"); POST_starred (mkWord "comet")]
                  eq_refl)).
Defined.

Lemma list_in_snoc (x : string) (l : list string) : list_in x (l ++ [x]) = true.
Proof.
  apply list_in_spec. apply elem_of_app. right. by apply list_elem_of_singleton.
Qed.

Lemma list_remove_snoc (x : string) (l : list string) :
  x ∉ l → list_remove x (l ++ [x]) = inr l.
Proof.
  induction l as [|y l IH]; simpl; intros Hx.
  - by rewrite String.eqb_refl.
  - apply not_elem_of_cons in Hx as [Hne Hx].
    destruct (String.eqb_spec y x) as [->|_]; [done|]. by rewrite IH.
Qed.

(** X11. Starring a word that is not a favourite and unstarring it again
    gives back the state one started from, list and order included: the
    first answer is the list with the word at its end, the second the
    list as it was. *)
Theorem star_unstar_round_trip (W : World) (σ : State) (w : Word) :
  word w ∉ starred_words σ →
  serve W [POST_starred w; POST_unstarred w] σ
  = ([Response 200 (Json (RList (starred_words σ ++ [word w])));
      Response 200 (Json (RList (starred_words σ)))], σ).
Proof.
  intros Hin. simpl. unfold run_handler.
  rewrite add_starred_word_run. simpl. rewrite decide_False by done.
  unfold remove_starred_word. run_monad.
  rewrite list_in_snoc, list_remove_snoc by done. simpl.
  by destruct σ.
Qed.

Lemma star_unstar_round_trip_witness :
  serve Demo.world [POST_starred (mkWord "comet"); POST_unstarred (mkWord "comet")]
    (Demo.running Demo.world [POST_starred (mkWord "nebula")])
  = ([Response 200 (Json (RList ["nebula"; "comet"]));
      Response 200 (Json (RList ["nebula"]))],
     Demo.running Demo.world [POST_starred (mkWord "nebula")]).
Proof.
  apply (star_unstar_round_trip Demo.world
           (Demo.running Demo.world [POST_starred (mkWord "nebula")])
           (mkWord "comet")).
  apply list_in_false. reflexivity.
Defined.

(** X12. Unstarring a favourite and starring it again does not restore
    its place: the word ends up last, behind the other favourites, which
    keep their order. *)
Theorem restar_moves_to_end (W : World) (σ0 : State) (rs : list request) (w : Word) :
  starred_words σ0 = [] →
  let σ := (serve W rs σ0).2 in
  word w ∈ starred_words σ →
  starred_words (serve W [POST_unstarred w; POST_starred w] σ).2
  = (filter (λ y, y ≠ word w) (starred_words σ) ++ [word w])%list.
Proof.
  intros H0 σ Hin.
  assert (NoDup (starred_words σ)) as Hnd.
  { apply serve_NoDup. rewrite H0. apply NoDup_nil_2. }
  cbn [serve]. unfold handle, run_handler.
  rewrite (remove_starred_word_run w σ Hnd). cbn zeta iota beta.
  rewrite add_starred_word_run. simpl.
  rewrite decide_False; [done|].
  intros [Hne _]%list_elem_of_filter. done.
Qed.

Lemma restar_moves_to_end_witness :
  starred_words
    (serve Demo.world [POST_unstarred (mkWord "nebula"); POST_starred (mkWord "nebula")]
       (serve Demo.world [POST_starred (mkWord "nebula"); POST_starred (mkWord "comet")]
          (initial Demo.world [])).2).2
  = ["comet"; "nebula"].
Proof.
  etrans.
  - apply (restar_moves_to_end Demo.world (initial Demo.world [])
             [POST_starred (mkWord "nebula"); POST_starred (mkWord "comet")]
             (mkWord "nebula") eq_refl).
    apply list_in_spec. reflexivity.
  - reflexivity.
Defined.

(** ** The log *)

Ltac absent H :=
  simpl in H;
  repeat (apply elem_of_cons in H as [H|H]; [discriminate|]);
  by apply elem_of_nil in H.

Ltac present :=
  simpl; repeat first [apply list_elem_of_here | apply list_elem_of_further].

(** [load_model] logs its success exactly when it returns, and never
    logs an error. *)
Lemma load_model_logs (W : World) (σ : State) :
  ∃ evs, (load_model W σ).2 = add_events evs σ
    ∧ (∀ msg, Log ERROR msg ∉ evs)
    ∧ match (load_model W σ).1 with
      | inr _ => Log SUCCESS "Model and tokenizer loaded successfully" ∈ evs
      | inl _ => ∀ msg, Log SUCCESS msg ∉ evs
      end.
Proof.
  unfold_load. repeat next_answer;
  match goal with
  | |- ∃ evs, ?s = _ ∧ _ =>
      let r := recorded σ s in exists r; split_and!; [reflexivity | |]
  end;
  first [ intros msg H; absent H | present ].
Qed.

Lemma check_folders_logs (W : World) (σ : State) :
  ∃ evs, events (check_folders W σ).2 = (events σ ++ evs)%list
    ∧ (∀ msg, Log ERROR msg ∉ evs) ∧ (∀ msg, Log SUCCESS msg ∉ evs).
Proof.
  unfold check_folders, path_exists, outside. run_monad.
  repeat next_answer; rewrite <- ?app_assoc; eexists;
    (split_and!; [reflexivity | |]); intros msg H; absent H.
Qed.

(** X13. The start-up log tells the outcome.  When start-up completes
    from an empty registry, the records it has added end with
    "Application startup complete"; among them is the record
    "Model and tokenizer loaded successfully" exactly when the registry
    is now loaded, and an error record exactly when it is still empty. *)
Theorem startup_log_tells_outcome (W : World) (σ σ' : State) :
  NotLoaded σ →
  lifespan_startup W σ = (inr tt, σ') →
  ∃ evs, events σ' = (events σ ++ evs)%list
    ∧ last evs = Some (Log INFO "Application startup complete")
    ∧ (Loaded σ' ↔ Log SUCCESS "Model and tokenizer loaded successfully" ∈ evs)
    ∧ (NotLoaded σ' ↔ ∃ msg, Log ERROR msg ∈ evs).
Proof.
  intros [Hm Ht] Hs.
  destruct (check_folders_logs W σ) as (evs1 & He1 & Herr1 & Hsuc1).
  destruct (check_folders_globals W σ) as (Hms1 & _).
  destruct (check_folders W σ) as [[e|[]] σa] eqn:Hf; simpl in He1, Hms1.
  { by rewrite (lifespan_startup_no_folder _ _ _ _ Hf) in Hs. }
  rewrite (lifespan_startup_run _ _ _ Hf) in Hs. injection Hs as <-.
  destruct (load_model_logs W σa) as (evs2 & He2 & Herr2 & Hsuc2).
  destruct (add_events_globals evs2 σa) as (_ & Hms2 & _ & _ & Hev2).
  destruct (load_model W σa) as [[e|[m tk]] σb] eqn:Hl; simpl in He2, Hsuc2;
    rewrite <- He2 in Hms2, Hev2; clear He2.
  - rewrite (try_load_model_failure _ _ _ _ Hl). simpl. rewrite Hev2, He1.
    exists (evs1 ++ evs2 ++ [Log ERROR ("Startup failed: " ++ py_str e);
                             Log INFO "Application startup complete"])%list.
    split_and!.
    + by rewrite <- !app_assoc.
    + rewrite !app_assoc.
      change [Log ERROR ("Startup failed: " ++ py_str e);
              Log INFO "Application startup complete"]
        with ([Log ERROR ("Startup failed: " ++ py_str e)]
              ++ [Log INFO "Application startup complete"])%list.
      rewrite app_assoc. apply last_snoc.
    + split.
      * intros [[? HL] _]. simpl in HL. rewrite Hms2, Hms1, Hm in HL. done.
      * intros Hin. exfalso.
        apply elem_of_app in Hin as [Hin|Hin]; [by destruct (Hsuc1 _ Hin)|].
        apply elem_of_app in Hin as [Hin|Hin]; [by destruct (Hsuc2 _ Hin)|].
        absent Hin.
    + split.
      * intros _. eexists. rewrite !elem_of_app. right. right. apply list_elem_of_here.
      * intros _. unfold NotLoaded. simpl. by rewrite Hms2, Hms1.
  - rewrite (try_load_model_success _ _ _ _ _ Hl). simpl. rewrite Hev2, He1.
    exists (evs1 ++ evs2 ++ [Log INFO "Application startup complete"])%list.
    split_and!.
    + by rewrite <- !app_assoc.
    + rewrite !app_assoc. apply last_snoc.
    + split.
      * intros _. rewrite !elem_of_app. right. by left.
      * intros _. apply Loaded_insert.
    + split.
      * intros [HN _]. simpl in HN.
        rewrite lookup_insert_ne, lookup_insert_eq in HN; done.
      * intros [msg Hin]. exfalso.
        apply elem_of_app in Hin as [Hin|Hin]; [by destruct (Herr1 _ Hin)|].
        apply elem_of_app in Hin as [Hin|Hin]; [by destruct (Herr2 _ Hin)|].
        absent Hin.
Qed.

Lemma startup_log_tells_outcome_witness :
  ∃ evs,
    events (Demo.started Demo.no_weights)
    = (events (initial Demo.no_weights []) ++ evs)%list
    ∧ last evs = Some (Log INFO "Application startup complete")
    ∧ (Loaded (Demo.started Demo.no_weights)
       ↔ Log SUCCESS "Model and tokenizer loaded successfully" ∈ evs)
    ∧ (NotLoaded (Demo.started Demo.no_weights) ↔ ∃ msg, Log ERROR msg ∈ evs).
Proof.
  apply (startup_log_tells_outcome Demo.no_weights (initial Demo.no_weights [])
           (Demo.started Demo.no_weights)).
  - split; reflexivity.
  - reflexivity.
Defined.

(** ** The property test of the test suite *)

Lemma string_get_Some (s : string) (i : nat) :
  (i < String.length s)%nat → ∃ c, String.get i s = Some c.
Proof.
  revert i. induction s as [|a s IH]; intros i Hi; simpl in *; [lia|].
  destruct i as [|i]; [by eexists|]. apply IH. lia.
Qed.

Lemma choices_length (population : string) (k : nat) (g : Rng) :
  (0 < String.length population)%nat →
  ∃ s, (TestDoubles.choices population k g).1 = inr s ∧ String.length s = k.
Proof.
  intros Hpop. revert g. induction k as [|k IH]; intros g; simpl; [by eexists|].
  destruct (TestDoubles.next_draw g) as [r g'].
  destruct (string_get_Some population (N.to_nat r mod String.length population))
    as [c ->].
  { apply Nat.mod_upper_bound. lia. }
  destruct (IH g') as (s & Hs & Hlen).
  destruct (TestDoubles.choices population k g') as [[e|s'] g'']; simpl in Hs; [done|].
  injection Hs as ->. exists (String c s). simpl. by rewrite Hlen.
Qed.

Lemma mock_words_spec (n : nat) (max_length : Z) (g : Rng) :
  (1 ≤ max_length)%Z →
  ∃ ws, (TestDoubles.mock_words n max_length g).1 = inr ws
    ∧ length ws = n
    ∧ Forall (λ w, (1 ≤ Z.of_nat (String.length w) ≤ max_length)%Z) ws.
Proof.
  intros Hmax. revert g. induction n as [|n IH]; intros g; simpl.
  { exists []. by split_and!. }
  unfold TestDoubles.randint. rewrite (proj2 (Z.ltb_ge _ _) Hmax).
  destruct (TestDoubles.next_draw g) as [r g1].
  set (current_len := (1 + Z.of_N r mod (max_length - 1 + 1))%Z).
  assert (1 ≤ current_len ≤ max_length)%Z as Hlen.
  { subst current_len. pose proof (Z.mod_pos_bound (Z.of_N r) (max_length - 1 + 1)). lia. }
  destruct (choices_length TestDoubles.ascii_lowercase (Z.to_nat current_len) g1)
    as (w & Hw & Hwl); [simpl; lia|].
  destruct (TestDoubles.choices _ _ g1) as [[e|w'] g2]; simpl in Hw; [done|].
  injection Hw as ->.
  destruct (IH g2) as (ws & Hws & Hn & Hall).
  destruct (TestDoubles.mock_words n max_length g2) as [[e|ws'] g3]; simpl in Hws; [done|].
  injection Hws as ->. exists (w :: ws). simpl. split_and!; [done | by rewrite Hn |].
  constructor; [|done]. rewrite Hwl. lia.
Qed.

(** X14. What [test_generation_properties] checks holds for every count,
    every temperature and every run of the random generator: with both
    entries in the registry and [sample_n] replaced by the stand-in of
    the test suite, [new_words(n, temperature)] returns a list of
    exactly [n] words, each of at least 1 and at most 20 characters. *)
Theorem new_words_with_stand_in (W : World) (σ : State) (n : Z) (t : Q) (m tk : pyobj) :
  w_sample_n W = TestDoubles.mock_sample_n_implementation →
  model_state σ !! "model" = Some m →
  model_state σ !! "tokenizer" = Some tk →
  (0 ≤ n)%Z →
  ∃ ws, (new_words W n t σ).1 = inr ws
    ∧ Z.of_nat (length ws) = n
    ∧ Forall (λ w, (1 ≤ String.length w ≤ 20)%nat) ws.
Proof.
  intros HW Hm Htk Hn. unfold new_words, sample_n. run_monad.
  rewrite Hm, Htk, HW. simpl. unfold TestDoubles.mock_sample_n_implementation.
  destruct (mock_words_spec (Z.to_nat n) 20 (rng σ)) as (ws & Hws & Hlen & Hall); [lia|].
  destruct (TestDoubles.mock_words (Z.to_nat n) 20 (rng σ)) as [[e|ws'] g];
    simpl in Hws; [done|].
  injection Hws as ->. exists ws. simpl. split_and!; [done | lia |].
  eapply Forall_impl; [exact Hall|]. simpl. intros w Hw. lia.
Qed.

Lemma new_words_with_stand_in_witness :
  ∃ ws,
    (new_words TestDoubles.patched 3 (1 # 2)
       (set_rng [4; 0; 1; 2; 3; 7; 25; 24; 23]%N (Demo.started TestDoubles.patched))).1
    = inr ws
    ∧ Z.of_nat (length ws) = 3%Z
    ∧ Forall (λ w, (1 ≤ String.length w ≤ 20)%nat) ws.
Proof.
  apply (new_words_with_stand_in TestDoubles.patched
           (set_rng [4; 0; 1; 2; 3; 7; 25; 24; 23]%N (Demo.started TestDoubles.patched))
           3 (1 # 2)
           (PyModel (mkModel (mkConfig 3 16 32 1) (Some Demo.weights)))
           (PyTokenizer Demo.tokenizer) eq_refl eq_refl eq_refl).
  lia.
Defined.
